(* ===================================================================== *)
(* civic-report: issue status workflow, access policy, assignment router  *)
(* and notification dispatcher.                                            *)
(*                                                                         *)
(* Shallow embedding of                                                    *)
(*   server/models/Issue.js, server/models/Notification.js,                *)
(*   server/routes/issues.js, server/routes/notifications.js               *)
(* Documents are records, Mongo collections are finite maps keyed by the   *)
(* ObjectId (the user directory is a list: `findOne` depends on its        *)
(* order), route callbacks are functions DB -> Response * DB.              *)
(* ===================================================================== *)

From stdpp Require Import gmap strings list fin_maps.

Local Open Scope string_scope.

(* --------------------------------------------------------------------- *)
(* Enumerations of the schemas                                            *)
(* --------------------------------------------------------------------- *)

(* User.role: enum ['citizen', 'low_admin', 'high_admin'] *)
Inductive Role := citizen | low_admin | high_admin.

(* Issue.status: enum of six strings; the same six strings are the only
   values the validator of PUT /:id/status lets through. *)
Inductive Status :=
  | pending | in_progress | pending_verification
  | verified_solved | escalated | reopened.

(* Issue.priority: enum ['low', 'medium', 'high', 'urgent'] *)
Inductive IssuePriority := ip_low | ip_medium | ip_high | ip_urgent.

(* Notification.priority: enum ['low', 'medium', 'high'] *)
Inductive Priority := low | medium | high.

(* Notification.type *)
Inductive NotificationType :=
  | issue_created | issue_assigned | issue_updated | issue_escalated
  | issue_resolved | verification_required | issue_reopened
  | comment_added | status_changed.

#[global] Instance Role_eq_dec : EqDecision Role.
Proof. solve_decision. Defined.
#[global] Instance Status_eq_dec : EqDecision Status.
Proof. solve_decision. Defined.
#[global] Instance IssuePriority_eq_dec : EqDecision IssuePriority.
Proof. solve_decision. Defined.
#[global] Instance Priority_eq_dec : EqDecision Priority.
Proof. solve_decision. Defined.
#[global] Instance NotificationType_eq_dec : EqDecision NotificationType.
Proof. solve_decision. Defined.

(* ObjectIds; `a.toString() === b.toString()` on ObjectIds is equality. *)
Abbreviation ObjectId := nat (only parsing).
(* `new Date()` / `Date.now`: a clock reading handed to the callback. *)
Abbreviation Date := nat (only parsing).

(* --------------------------------------------------------------------- *)
(* Documents                                                              *)
(* --------------------------------------------------------------------- *)

Module User.
(* `assignedIssues` is the key autoAssignIssue sorts on; the schema
   declares no such path, so a stored document normally has none. *)
Record t := mk {
  _id : ObjectId;
  role : Role;
  assignedZones : list string;
  department : option string;
  isActive : bool;
  assignedIssues : option nat
}.
End User.

Module StatusChange.
Record t := mk {
  status : Status;
  changedBy : ObjectId;
  changedAt : Date;
  reason : string
}.
End StatusChange.

Module Comment.
Record t := mk {
  text : string;
  author : ObjectId;
  createdAt : Date;
  isInternal : bool
}.
End Comment.

Module WorkProof.
Record t := mk {
  url : string;
  publicId : string;
  description : string;
  uploadedBy : ObjectId;
  uploadedAt : Date
}.
End WorkProof.

Module Issue.
(* The paths of issueSchema that the routes below read or write;
   description, coordinates, images, videos, tags, isPublic and the cost
   paths are written once by the constructor and never touched again. *)
Record t := mk {
  _id : ObjectId;
  title : string;
  category : string;
  priority : IssuePriority;
  status : Status;
  zone : string;                        (* location.zone *)
  reportedBy : ObjectId;
  assignedTo : option ObjectId;
  assignedDepartment : option string;
  assignedAt : option Date;
  dueDate : option Date;
  resolvedAt : option Date;
  verifiedAt : option Date;
  escalatedAt : option Date;
  workProof : list WorkProof.t;
  comments : list Comment.t;
  statusHistory : list StatusChange.t;
  escalationReason : option string
}.

Definition set_status (v : Status) (i : t) : t :=
  mk (_id i) (title i) (category i) (priority i) v (zone i) (reportedBy i)
     (assignedTo i) (assignedDepartment i) (assignedAt i) (dueDate i)
     (resolvedAt i) (verifiedAt i) (escalatedAt i)
     (workProof i) (comments i) (statusHistory i) (escalationReason i).
Definition set_assignedTo (v : option ObjectId) (i : t) : t :=
  mk (_id i) (title i) (category i) (priority i) (status i) (zone i) (reportedBy i)
     v (assignedDepartment i) (assignedAt i) (dueDate i)
     (resolvedAt i) (verifiedAt i) (escalatedAt i)
     (workProof i) (comments i) (statusHistory i) (escalationReason i).
Definition set_assignedDepartment (v : option string) (i : t) : t :=
  mk (_id i) (title i) (category i) (priority i) (status i) (zone i) (reportedBy i)
     (assignedTo i) v (assignedAt i) (dueDate i)
     (resolvedAt i) (verifiedAt i) (escalatedAt i)
     (workProof i) (comments i) (statusHistory i) (escalationReason i).
Definition set_assignedAt (v : option Date) (i : t) : t :=
  mk (_id i) (title i) (category i) (priority i) (status i) (zone i) (reportedBy i)
     (assignedTo i) (assignedDepartment i) v (dueDate i)
     (resolvedAt i) (verifiedAt i) (escalatedAt i)
     (workProof i) (comments i) (statusHistory i) (escalationReason i).
Definition set_dueDate (v : option Date) (i : t) : t :=
  mk (_id i) (title i) (category i) (priority i) (status i) (zone i) (reportedBy i)
     (assignedTo i) (assignedDepartment i) (assignedAt i) v
     (resolvedAt i) (verifiedAt i) (escalatedAt i)
     (workProof i) (comments i) (statusHistory i) (escalationReason i).
Definition set_resolvedAt (v : option Date) (i : t) : t :=
  mk (_id i) (title i) (category i) (priority i) (status i) (zone i) (reportedBy i)
     (assignedTo i) (assignedDepartment i) (assignedAt i) (dueDate i)
     v (verifiedAt i) (escalatedAt i)
     (workProof i) (comments i) (statusHistory i) (escalationReason i).
Definition set_verifiedAt (v : option Date) (i : t) : t :=
  mk (_id i) (title i) (category i) (priority i) (status i) (zone i) (reportedBy i)
     (assignedTo i) (assignedDepartment i) (assignedAt i) (dueDate i)
     (resolvedAt i) v (escalatedAt i)
     (workProof i) (comments i) (statusHistory i) (escalationReason i).
Definition set_escalatedAt (v : option Date) (i : t) : t :=
  mk (_id i) (title i) (category i) (priority i) (status i) (zone i) (reportedBy i)
     (assignedTo i) (assignedDepartment i) (assignedAt i) (dueDate i)
     (resolvedAt i) (verifiedAt i) v
     (workProof i) (comments i) (statusHistory i) (escalationReason i).
Definition set_workProof (v : list WorkProof.t) (i : t) : t :=
  mk (_id i) (title i) (category i) (priority i) (status i) (zone i) (reportedBy i)
     (assignedTo i) (assignedDepartment i) (assignedAt i) (dueDate i)
     (resolvedAt i) (verifiedAt i) (escalatedAt i)
     v (comments i) (statusHistory i) (escalationReason i).
Definition set_comments (v : list Comment.t) (i : t) : t :=
  mk (_id i) (title i) (category i) (priority i) (status i) (zone i) (reportedBy i)
     (assignedTo i) (assignedDepartment i) (assignedAt i) (dueDate i)
     (resolvedAt i) (verifiedAt i) (escalatedAt i)
     (workProof i) v (statusHistory i) (escalationReason i).
Definition set_statusHistory (v : list StatusChange.t) (i : t) : t :=
  mk (_id i) (title i) (category i) (priority i) (status i) (zone i) (reportedBy i)
     (assignedTo i) (assignedDepartment i) (assignedAt i) (dueDate i)
     (resolvedAt i) (verifiedAt i) (escalatedAt i)
     (workProof i) (comments i) v (escalationReason i).

Definition set_escalationReason (v : option string) (i : t) : t :=
  mk (_id i) (title i) (category i) (priority i) (status i) (zone i) (reportedBy i)
     (assignedTo i) (assignedDepartment i) (assignedAt i) (dueDate i)
     (resolvedAt i) (verifiedAt i) (escalatedAt i)
     (workProof i) (comments i) (statusHistory i) v.

(* issueSchema.methods.addStatusChange (reason defaults to ''; changedAt
   defaults to Date.now when the subdocument is created) *)
Definition addStatusChange (newStatus : Status) (changedBy : ObjectId)
    (reason : option string) (now : Date) (this : t) : t :=
  let entry := StatusChange.mk newStatus changedBy now (default "" reason) in
  set_status newStatus (set_statusHistory (statusHistory this ++ [entry]) this).
End Issue.

Module Notification.
(* The object literal handed to createNotification: no recipient yet,
   `priority` may be absent. *)
Record payload := mkPayload {
  p_type : NotificationType;
  p_title : string;
  p_message : string;
  p_relatedIssue : option ObjectId;
  p_priority : option Priority
}.

(* The plain object handed to `new Notification(..)` / insertMany. *)
Record data := mkData {
  d_type : NotificationType;
  d_title : string;
  d_message : string;
  d_relatedIssue : option ObjectId;
  d_recipient : ObjectId;
  d_priority : option Priority
}.

(* A stored document, schema defaults applied. *)
Record t := mk {
  recipient : ObjectId;
  type : NotificationType;
  title : string;
  message : string;
  relatedIssue : option ObjectId;
  isRead : bool;
  readAt : option Date;
  priority : Priority
}.

(* { ...notificationData, recipient } *)
Definition addressed (p : payload) (r : ObjectId) : data :=
  mkData (p_type p) (p_title p) (p_message p) (p_relatedIssue p) r (p_priority p).

(* isRead defaults to false, priority to 'medium' *)
Definition create (d : data) : t :=
  mk (d_recipient d) (d_type d) (d_title d) (d_message d) (d_relatedIssue d)
     false None (default medium (d_priority d)).

(* notificationSchema.methods.markAsRead *)
Definition markAsRead (now : Date) (this : t) : t :=
  mk (recipient this) (type this) (title this) (message this)
     (relatedIssue this) true (Some now) (priority this).
End Notification.

(* what a route answers: the HTTP status and the `message` of the body *)
Record Response := mkResponse { code : nat; body : string }.

(* --------------------------------------------------------------------- *)
(* Strings and ids as requests carry them                                 *)
(* --------------------------------------------------------------------- *)

(* White space of String.prototype.trim among the code units below 256:
   tab, line feed, vertical tab, form feed, carriage return, space and
   no-break space. *)
Definition is_space (c : Ascii.ascii) : bool :=
  bool_decide (Ascii.nat_of_ascii c ∈ [9; 10; 11; 12; 13; 32; 160]%nat).

Fixpoint trimStart (s : string) : string :=
  match s with
  | EmptyString => EmptyString
  | String c rest => if is_space c then trimStart rest else s
  end.

Fixpoint trimEnd (s : string) : string :=
  match s with
  | EmptyString => EmptyString
  | String c rest =>
      match trimEnd rest with
      | EmptyString => if is_space c then EmptyString else String c EmptyString
      | kept => String c kept
      end
  end.

(* the setter of a schema path declared with `trim: true` *)
Definition trim (s : string) : string := trimEnd (trimStart s).

(* An id as a request body spells it. isMongoId() lets 24 hex digits
   through in either case and Mongoose casts both spellings to the same
   ObjectId, while toString() of an ObjectId is lower case: `parsed` is
   the ObjectId the string casts to, `canonical` says whether the string
   is that lower-case spelling. *)
Record RawId := mkRawId {
  parsed : ObjectId;
  canonical : bool
}.

(* --------------------------------------------------------------------- *)
(* Role middleware                                                        *)
(* --------------------------------------------------------------------- *)

(** Modelled from the spec: the middleware requireRole and requireHighAdmin
    of server/middleware/auth.js, which is not among the sources. By
    sections 4.2 and 7 a request whose actor lacks the role a route asks
    for is rejected as AccessDenied before the route's callback runs.
    The rejection is taken to answer 403; the properties below use only
    that it is not a success and writes nothing. *)
Definition requireRole (roles : list Role) (user : User.t) : bool :=
  bool_decide (User.role user ∈ roles).

Definition requireHighAdmin (user : User.t) : bool :=
  requireRole [high_admin] user.

Definition roleDenied : Response := mkResponse 403 "Access denied".

(* --------------------------------------------------------------------- *)
(* Access policy (routes/issues.js, helper functions)                     *)
(* --------------------------------------------------------------------- *)

Definition canAssignIssue (user : User.t) (issue : Issue.t) : bool :=
  match User.role user with
  | high_admin => true
  | low_admin =>
      bool_decide (Issue.zone issue ∈ User.assignedZones user)
      || bool_decide (User.department user = Issue.assignedDepartment issue)
  | citizen => false
  end.

Definition canUpdateStatus (user : User.t) (issue : Issue.t) (newStatus : Status) : bool :=
  match User.role user with
  | high_admin => true
  | low_admin =>
      bool_decide (Issue.assignedTo issue = Some (User._id user))
      || bool_decide (Issue.zone issue ∈ User.assignedZones user)
  | citizen =>
      bool_decide (Issue.reportedBy issue = User._id user)
      && bool_decide (newStatus ∈ [pending_verification; reopened])
  end.

Definition hasIssueAccess (user : User.t) (issue : Issue.t) : bool :=
  match User.role user with
  | high_admin => true
  | low_admin =>
      bool_decide (Issue.assignedTo issue = Some (User._id user))
      || bool_decide (Issue.zone issue ∈ User.assignedZones user)
  | citizen => bool_decide (Issue.reportedBy issue = User._id user)
  end.

Definition canAddWorkProof (user : User.t) (issue : Issue.t) : bool :=
  match User.role user with
  | high_admin => true
  | low_admin => bool_decide (Issue.assignedTo issue = Some (User._id user))
  | citizen => false
  end.

(* --------------------------------------------------------------------- *)
(* Workflow engine                                                        *)
(* --------------------------------------------------------------------- *)

(* the object literal `transitions`; a key lookup can come back undefined *)
Definition transitions (currentStatus : Status) : option (list Status) :=
  match currentStatus with
  | pending => Some [in_progress; escalated]
  | in_progress => Some [pending_verification; escalated]
  | pending_verification => Some [verified_solved; reopened]
  | verified_solved => Some [reopened]
  | escalated => Some [in_progress; pending_verification]
  | reopened => Some [in_progress; escalated]
  end.

(* transitions[currentStatus]?.includes(newStatus) || false *)
Definition isValidStatusTransition (currentStatus newStatus : Status)
    (userRole : Role) : bool :=
  match transitions currentStatus with
  | Some targets => bool_decide (newStatus ∈ targets) || false
  | None => false
  end.

(* The edge table as the specification words it (section 4.1). *)
Inductive spec_edge : Status → Status → Prop :=
  | edge_pending_in_progress : spec_edge pending in_progress
  | edge_pending_escalated : spec_edge pending escalated
  | edge_in_progress_pending_verification : spec_edge in_progress pending_verification
  | edge_in_progress_escalated : spec_edge in_progress escalated
  | edge_pending_verification_verified_solved : spec_edge pending_verification verified_solved
  | edge_pending_verification_reopened : spec_edge pending_verification reopened
  | edge_verified_solved_reopened : spec_edge verified_solved reopened
  | edge_escalated_in_progress : spec_edge escalated in_progress
  | edge_escalated_pending_verification : spec_edge escalated pending_verification
  | edge_reopened_in_progress : spec_edge reopened in_progress
  | edge_reopened_escalated : spec_edge reopened escalated.

#[global] Instance spec_edge_dec cur new : Decision (spec_edge cur new).
Proof.
  destruct cur, new;
    first [ left; constructor | right; intros H; inversion H ].
Defined.

(* --------------------------------------------------------------------- *)
(* The database                                                           *)
(* --------------------------------------------------------------------- *)

Record DB := mkDB {
  issues : gmap nat Issue.t;
  users : list User.t;                    (* in natural (insertion) order *)
  notifications : gmap nat Notification.t
}.

Definition set_issues (v : gmap nat Issue.t) (db : DB) : DB :=
  mkDB v (users db) (notifications db).
Definition set_notifications (v : gmap nat Notification.t) (db : DB) : DB :=
  mkDB (issues db) (users db) v.

(* issue.save() *)
Definition save (issue : Issue.t) (db : DB) : DB :=
  set_issues (<[Issue._id issue := issue]> (issues db)) db.

(* Notification.insertMany / notification.save() on new documents: each
   gets an ObjectId not yet in the collection. *)
Definition insertMany (docs : list Notification.data)
    (coll : gmap nat Notification.t) : gmap nat Notification.t :=
  foldl (λ m d, <[fresh (dom m) := Notification.create d]> m) coll docs.


(* User.findById *)
Definition findUserById (id : ObjectId) (us : list User.t) : option User.t :=
  head (filter (λ u, User._id u = id) us).

(* User.find({ role: 'high_admin' }) *)
Definition findHighAdmins (us : list User.t) : list User.t :=
  filter (λ u, User.role u = high_admin) us.

(* User.find({ role: { $in: ['low_admin', 'high_admin'] } }) *)
Definition findAdmins (us : list User.t) : list User.t :=
  filter (λ u, User.role u ∈ [low_admin; high_admin]) us.

(* Ascending order of a sort key; a missing key sorts before every number. *)
Definition key_le (a b : option nat) : bool :=
  match a, b with
  | None, _ => true
  | Some _, None => false
  | Some x, Some y => bool_decide (x ≤ y)%nat
  end.

Fixpoint insert_by_assignedIssues (u : User.t) (sorted : list User.t) : list User.t :=
  match sorted with
  | [] => [u]
  | v :: rest =>
      if key_le (User.assignedIssues u) (User.assignedIssues v)
      then u :: v :: rest
      else v :: insert_by_assignedIssues u rest
  end.

(* .sort({ 'assignedIssues': 1 }), equal keys kept in natural order *)
Definition sort_by_assignedIssues (us : list User.t) : list User.t :=
  foldr insert_by_assignedIssues [] us.

(* the filter of autoAssignIssue's findOne *)
Definition eligible (zone : string) (u : User.t) : Prop :=
  User.role u = low_admin ∧ zone ∈ User.assignedZones u ∧ User.isActive u = true.

#[global] Instance eligible_dec zone u : Decision (eligible zone u).
Proof. unfold eligible. apply _. Defined.

(* --------------------------------------------------------------------- *)
(* Notification dispatcher                                                *)
(* --------------------------------------------------------------------- *)

(* second argument of createNotification: 'admin', 'participants', or an id *)
Inductive Recipient :=
  | to_admin
  | to_participants
  | to_user (id : ObjectId).

(* The documents createNotification builds before it stores them. *)
Definition createNotification_docs (notificationData : Notification.payload)
    (recipient : Recipient) (issue : option Issue.t) (us : list User.t)
    : list Notification.data :=
  match recipient, issue with
  | to_admin, _ =>
      map (λ admin, Notification.addressed notificationData (User._id admin))
          (findAdmins us)
  | to_participants, Some issue =>
      let participants :=
        Issue.reportedBy issue :: from_option (λ a, [a]) [] (Issue.assignedTo issue) in
      map (Notification.addressed notificationData) participants
  | to_participants, None => []          (* no ObjectId to cast: caught and logged *)
  | to_user id, _ => [Notification.addressed notificationData id]
  end.

Definition createNotification (notificationData : Notification.payload)
    (recipient : Recipient) (issue : option Issue.t) (db : DB) : DB :=
  set_notifications
    (insertMany (createNotification_docs notificationData recipient issue (users db))
                (notifications db)) db.

(* the double-quote character of the message templates *)
Definition dq : string := String (Ascii.ascii_of_nat 34) EmptyString.

(* The array `notifications` that handleStatusChangeNotifications fills. *)
Definition statusChange_docs (issue : Issue.t) (newStatus : Status)
    (us : list User.t) : list Notification.data :=
  match newStatus with
  | in_progress =>
      [Notification.mkData issue_updated "Issue In Progress"
         ("Your reported issue " ++ dq ++ Issue.title issue ++ dq
            ++ " is now being worked on")
         (Some (Issue._id issue)) (Issue.reportedBy issue) None]
  | pending_verification =>
      map (λ admin,
             Notification.mkData verification_required "Verification Required"
               ("Issue " ++ dq ++ Issue.title issue ++ dq
                  ++ " requires verification")
               (Some (Issue._id issue)) (User._id admin) (Some high))
          (findHighAdmins us)
      ++ [Notification.mkData verification_required
            "Issue Resolution Pending Verification"
            ("Your reported issue " ++ dq ++ Issue.title issue ++ dq
               ++ " has been marked as resolved and is pending verification")
            (Some (Issue._id issue)) (Issue.reportedBy issue) None]
  | verified_solved =>
      [Notification.mkData issue_resolved "Issue Resolved"
         ("Your reported issue " ++ dq ++ Issue.title issue ++ dq
            ++ " has been verified as resolved")
         (Some (Issue._id issue)) (Issue.reportedBy issue) None]
  | escalated =>
      map (λ admin,
             Notification.mkData issue_escalated "Issue Escalated"
               ("Issue " ++ dq ++ Issue.title issue ++ dq
                  ++ " has been escalated and requires your attention")
               (Some (Issue._id issue)) (User._id admin) (Some high))
          (findHighAdmins us)
  | reopened =>
      match Issue.assignedTo issue with
      | Some assignee =>
          [Notification.mkData issue_reopened "Issue Reopened"
             ("Issue " ++ dq ++ Issue.title issue ++ dq ++ " has been reopened")
             (Some (Issue._id issue)) assignee (Some high)]
      | None => []
      end
  | pending => []
  end.

Definition handleStatusChangeNotifications (issue : Issue.t) (newStatus : Status)
    (changedBy : User.t) (db : DB) : DB :=
  let notifications_ := statusChange_docs issue newStatus (users db) in
  if bool_decide (0 < length notifications_)%nat
  then set_notifications (insertMany notifications_ (notifications db)) db
  else db.

(* issue.assignedDepartment = v: the path is declared with `trim: true` *)
Definition assignDepartment (v : option string) (issue : Issue.t) : Issue.t :=
  Issue.set_assignedDepartment (trim <$> v) issue.

(* priority === 'urgent' ? 'high' : 'medium' *)
Definition urgent_to_high (p : IssuePriority) : Priority :=
  if bool_decide (p = ip_urgent) then high else medium.

(* The object literals passed to createNotification by the callbacks. *)

(* POST /api/issues *)
Definition createdPayload (category zone : string) (issueId : ObjectId)
    (priority : IssuePriority) : Notification.payload :=
  Notification.mkPayload issue_created "New Issue Reported"
    ("A new " ++ category ++ " issue has been reported in " ++ zone)
    (Some issueId) (Some (urgent_to_high priority)).

(* PUT /api/issues/:id/assign *)
Definition assignedPayload (issue : Issue.t) : Notification.payload :=
  Notification.mkPayload issue_assigned "Issue Assigned"
    ("You have been assigned a new " ++ Issue.category issue ++ " issue")
    (Some (Issue._id issue)) (Some (urgent_to_high (Issue.priority issue))).

(* autoAssignIssue *)
Definition autoAssignedPayload (issue : Issue.t) : Notification.payload :=
  Notification.mkPayload issue_assigned "Issue Auto-Assigned"
    ("A new " ++ Issue.category issue ++ " issue has been auto-assigned to you")
    (Some (Issue._id issue)) (Some (urgent_to_high (Issue.priority issue))).

(* POST /api/issues/:id/comments: no `priority` key *)
Definition commentPayload (issue : Issue.t) : Notification.payload :=
  Notification.mkPayload comment_added "New Comment"
    ("A new comment was added to issue: " ++ Issue.title issue)
    (Some (Issue._id issue)) None.

(* --------------------------------------------------------------------- *)
(* Assignment router                                                      *)
(* --------------------------------------------------------------------- *)

(* User.findOne({ role: 'low_admin', assignedZones: zone, isActive: true })
       .sort({ 'assignedIssues': 1 }) *)
Definition findAssignee (zone : string) (us : list User.t) : option User.t :=
  head (sort_by_assignedIssues (filter (eligible zone) us)).

(* Returns the issue object as the caller sees it afterwards (the function
   mutates its argument) together with the database. *)
Definition autoAssignIssue (now : Date) (issue : Issue.t) (db : DB) : Issue.t * DB :=
  match findAssignee (Issue.zone issue) (users db) with
  | Some admin =>
      let issue1 := Issue.set_assignedTo (Some (User._id admin)) issue in
      let issue2 := assignDepartment (User.department admin) issue1 in
      let issue3 := Issue.set_assignedAt (Some now) issue2 in
      let issue4 := Issue.set_status in_progress issue3 in
      let db1 := save issue4 db in
      let db2 :=
        createNotification
          (autoAssignedPayload issue4)
          (to_user (User._id admin)) None db1 in
      (issue4, db2)
  | None => (issue, db)
  end.

(* --------------------------------------------------------------------- *)
(* Route callbacks (routes/issues.js)                                     *)
(* The callbacks run behind authenticateToken (which supplies `user`) and *)
(* the express-validator chain. The catch-all 500 branch is modelled      *)
(* where a request that passed the validators makes save() throw; the     *)
(* persistence layer failing is not part of the model.                    *)
(* --------------------------------------------------------------------- *)

(* a || b on optional strings: undefined and '' are falsy *)
Definition or_else (a b : option string) : option string :=
  match a with
  | Some s => if bool_decide (s = "") then b else Some s
  | None => b
  end.

(* The enum of Issue.priority, checked when the document is saved. *)
Definition parsePriority (s : string) : option IssuePriority :=
  if bool_decide (s = "low") then Some ip_low
  else if bool_decide (s = "medium") then Some ip_medium
  else if bool_decide (s = "high") then Some ip_high
  else if bool_decide (s = "urgent") then Some ip_urgent
  else None.

(* `priority = 'medium'` of the destructuring, then the enum: None when
   issue.save() rejects the document. The argument is the body's value
   as a string, None when the body has no such key; a JSON null is not
   considered. *)
Definition requestedPriority (priority : option string) : option IssuePriority :=
  match priority with
  | None => Some ip_medium
  | Some s => parsePriority s
  end.

(* POST /api/issues. title, category and zone come out of the validator
   chain; `priority` has no validator and is the body's string, if any.
   The other body paths (description, coordinates, images, videos, tags)
   are taken to pass the schema. A document the schema rejects makes
   issue.save() throw, which the catch answers with 500. *)
Definition postIssue (now : Date) (user : User.t)
    (title category zone : string) (priority : option string)
    (db : DB) : Response * DB :=
  match requestedPriority priority with
  | None => (mkResponse 500 "Server error while creating issue", db)
  | Some priority =>
      let issue :=
        Issue.mk (fresh (dom (issues db))) title category priority pending zone
          (User._id user) None None None None None None None [] [] [] None in
      let db1 := save issue db in
      let '(issue1, db2) := autoAssignIssue now issue db1 in
      let db3 :=
        createNotification
          (createdPayload category zone (Issue._id issue1) priority)
          to_admin None db2 in
      (mkResponse 201 "Issue reported successfully", db3)
  end.

(* PUT /api/issues/:id/assign, behind requireRole(['low_admin',
   'high_admin']) *)
Definition putAssign (now : Date) (user : User.t) (id : ObjectId)
    (assignedTo : ObjectId) (assignedDepartment : option string)
    (dueDate : option Date) (db : DB) : Response * DB :=
  if negb (requireRole [low_admin; high_admin] user) then (roleDenied, db) else
  match issues db !! id with
  | None => (mkResponse 404 "Issue not found", db)
  | Some issue =>
      if bool_decide (User.role user = low_admin) && negb (canAssignIssue user issue)
      then (mkResponse 403 "You cannot assign this issue", db)
      else
        match findUserById assignedTo (users db) with
        | None => (mkResponse 400 "Invalid assigned user", db)
        | Some assignedUser =>
            if negb (bool_decide (User.role assignedUser ∈ [low_admin; high_admin]))
            then (mkResponse 400 "Invalid assigned user", db)
            else
              let issue1 := Issue.set_assignedTo (Some assignedTo) issue in
              let issue2 :=
                assignDepartment
                  (or_else assignedDepartment (User.department assignedUser)) issue1 in
              let issue3 := Issue.set_assignedAt (Some now) issue2 in
              let issue4 := Issue.set_dueDate dueDate issue3 in
              let issue5 :=
                Issue.addStatusChange in_progress (User._id user)
                  (Some "Issue assigned") now issue4 in
              let db1 := save issue5 db in
              let db2 :=
                createNotification
                  (assignedPayload issue5)
                  (to_user (User._id assignedUser)) None db1 in
              (mkResponse 200 "Issue assigned successfully", db2)
        end
  end.

(* the if / else-if chain after addStatusChange in PUT /:id/status *)
Definition stampStatus (status : Status) (now : Date) (issue : Issue.t) : Issue.t :=
  match status with
  | pending_verification => Issue.set_resolvedAt (Some now) issue
  | verified_solved => Issue.set_verifiedAt (Some now) issue
  | escalated => Issue.set_escalatedAt (Some now) issue
  | _ => issue
  end.

(* PUT /api/issues/:id/status *)
Definition putStatus (now : Date) (user : User.t) (id : ObjectId)
    (status : Status) (reason : option string) (db : DB) : Response * DB :=
  match issues db !! id with
  | None => (mkResponse 404 "Issue not found", db)
  | Some issue =>
      if negb (canUpdateStatus user issue status)
      then (mkResponse 403 "You cannot update this issue status", db)
      else if negb (isValidStatusTransition (Issue.status issue) status (User.role user))
      then (mkResponse 400 "Invalid status transition", db)
      else
        let issue1 := Issue.addStatusChange status (User._id user) reason now issue in
        let issue2 := stampStatus status now issue1 in
        let db1 := save issue2 db in
        let db2 := handleStatusChangeNotifications issue2 status user db1 in
        (mkResponse 200 "Status updated successfully", db2)
  end.

(* What `isInternal` of a request body can be once isBoolean() has let it
   through: a JSON boolean, number or string. *)
Inductive JsValue :=
  | js_bool (b : bool)
  | js_number (n : nat)
  | js_string (s : string).

Definition truthy (v : JsValue) : bool :=
  match v with
  | js_bool b => b
  | js_number n => negb (bool_decide (n = 0%nat))
  | js_string s => negb (bool_decide (s = ""))
  end.

(* v && b with b a boolean: the left operand itself when it is falsy *)
Definition js_and (v : JsValue) (b : bool) : JsValue :=
  if truthy v then js_bool b else v.

(* Mongoose's cast of a Boolean path; None is a CastError at save time. *)
Definition castBoolean (v : JsValue) : option bool :=
  match v with
  | js_bool b => Some b
  | js_number 0 => Some false
  | js_number 1 => Some true
  | js_number _ => None
  | js_string s =>
      if bool_decide (s ∈ ["true"; "1"; "yes"]) then Some true
      else if bool_decide (s ∈ ["false"; "0"; "no"]) then Some false
      else None
  end.

(* POST /api/issues/:id/comments; `isInternal` defaults to false *)
Definition postComment (now : Date) (user : User.t) (id : ObjectId)
    (text : string) (isInternal : option JsValue) (db : DB) : Response * DB :=
  let isInternal := default (js_bool false) isInternal in
  match issues db !! id with
  | None => (mkResponse 404 "Issue not found", db)
  | Some issue =>
      if negb (hasIssueAccess user issue)
      then (mkResponse 403 "Access denied", db)
      else
        let flag :=
          js_and isInternal
                 (bool_decide (User.role user ∈ [low_admin; high_admin])) in
        match castBoolean flag with
        | None => (mkResponse 500 "Server error while adding comment", db)
        | Some stored =>
            let issue1 :=
              Issue.set_comments
                (Issue.comments issue ++ [Comment.mk text (User._id user) now stored])
                issue in
            let db1 := save issue1 db in
            let db2 :=
              createNotification
                (commentPayload issue1)
                to_participants (Some issue1) db1 in
            (mkResponse 200 "Comment added successfully", db2)
        end
  end.

(* An uploaded file: what uploadToCloudinary returned for it, and its
   original name. *)
Record Upload := mkUpload {
  secure_url : string;
  public_id : string;
  originalname : string
}.

(* POST /api/issues/:id/work-proof, behind requireRole(['low_admin',
   'high_admin']); `files` is req.files, empty when no upload middleware
   has set it *)
Definition postWorkProof (now : Date) (user : User.t) (id : ObjectId)
    (description : option string) (files : list Upload) (db : DB) : Response * DB :=
  if negb (requireRole [low_admin; high_admin] user) then (roleDenied, db) else
  match issues db !! id with
  | None => (mkResponse 404 "Issue not found", db)
  | Some issue =>
      if negb (canAddWorkProof user issue)
      then (mkResponse 403 "You cannot add work proof for this issue", db)
      else
        let workProof :=
          map (λ file,
                 WorkProof.mk (secure_url file) (public_id file)
                   (default "" (or_else description (Some (originalname file))))
                   (User._id user) now)
              files in
        let issue1 := Issue.set_workProof (Issue.workProof issue ++ workProof) issue in
        (mkResponse 200 "Work proof uploaded successfully", save issue1 db)
  end.

(* --------------------------------------------------------------------- *)
(* Route callbacks (routes/notifications.js)                              *)
(* --------------------------------------------------------------------- *)

(* PUT /api/notifications/:id/read *)
Definition putRead (now : Date) (user : User.t) (id : ObjectId) (db : DB)
    : Response * DB :=
  match notifications db !! id with
  | None => (mkResponse 404 "Notification not found", db)
  | Some notification =>
      if negb (bool_decide (Notification.recipient notification = User._id user))
      then (mkResponse 403 "Access denied", db)
      else
        let notification1 := Notification.markAsRead now notification in
        (mkResponse 200 "Notification marked as read",
         set_notifications (<[id := notification1]> (notifications db)) db)
  end.

(* DELETE /api/notifications/:id *)
Definition deleteNotification (user : User.t) (id : ObjectId) (db : DB)
    : Response * DB :=
  match notifications db !! id with
  | None => (mkResponse 404 "Notification not found", db)
  | Some notification =>
      if negb (bool_decide (Notification.recipient notification = User._id user))
      then (mkResponse 403 "Access denied", db)
      else
        (mkResponse 200 "Notification deleted successfully",
         set_notifications (delete id (notifications db)) db)
  end.

(* --------------------------------------------------------------------- *)
(* Notions the specification uses                                         *)
(* --------------------------------------------------------------------- *)

(* "status always equals the status of the last entry in the
   status-history sequence" (section 3).
   A document fresh from the constructor has an empty history and the
   schema default 'pending'. *)
Definition status_matches_history (issue : Issue.t) : Prop :=
  match last (Issue.statusHistory issue) with
  | Some entry => StatusChange.status entry = Issue.status issue
  | None => Issue.status issue = pending
  end.

(* "currently open (non-terminal-status) assigned issues" of a user
   (section 4.3): the issues assigned to the user that are not yet
   verified as solved *)
Definition openIssueCount (db : DB) (userId : ObjectId) : nat :=
  length (filter (λ kv : nat * Issue.t,
                    Issue.assignedTo kv.2 = Some userId
                    ∧ Issue.status kv.2 ≠ verified_solved)
                 (map_to_list (issues db))).

(* --------------------------------------------------------------------- *)
(* Sample data: the three accounts of the seeding script, one more        *)
(* low_admin, and a small database                                         *)
(* --------------------------------------------------------------------- *)

Definition sysadmin : User.t :=
  User.mk 1 high_admin ["Zone A"; "Zone B"; "Zone C"] (Some "Administration") true None.
Definition manager : User.t :=
  User.mk 2 low_admin ["Zone A"; "Zone B"] (Some "Public Works") true None.
Definition john : User.t :=
  User.mk 3 citizen [] None true None.
Definition jane : User.t :=
  User.mk 4 citizen [] None true None.
Definition foreman : User.t :=
  User.mk 5 low_admin ["Zone A"; "Zone C"] (Some "Public Works") true None.

(* an issue of John's in Zone C, never assigned *)
Definition pothole : Issue.t :=
  Issue.mk 10 "Deep pothole on Main St" "pothole" ip_urgent pending "Zone C" 3
    None None None None None None None [] [] [] None.

(* two issues in Zone A the manager is working on *)
Definition lamp : Issue.t :=
  Issue.mk 11 "Street lamp out" "streetlight" ip_medium in_progress "Zone A" 3
    (Some 2) (Some "Public Works") (Some 50) None None None None [] []
    [StatusChange.mk in_progress 1 50 "Issue assigned"] None.
Definition leak : Issue.t :=
  Issue.mk 12 "Water leak at the square" "water_leak" ip_urgent in_progress "Zone A" 4
    (Some 2) (Some "Public Works") (Some 60) None None None None [] []
    [StatusChange.mk in_progress 1 60 "Issue assigned"] None.

(* an issue in Zone C that the foreman of Public Works is working on *)
Definition sinkhole : Issue.t :=
  Issue.mk 13 "Sinkhole near the school" "road_damage" ip_high in_progress "Zone C" 4
    (Some 5) (Some "Public Works") (Some 70) None None None None [] []
    [StatusChange.mk in_progress 1 70 "Issue assigned"] None.

(* two files as the upload service hands them back *)
Definition sample_uploads : list Upload :=
  [mkUpload "https://files.example/a.jpg" "work-proof/a" "before.jpg";
   mkUpload "https://files.example/b.jpg" "work-proof/b" "after.jpg"].

(* two clerks of Zone E whose documents carry an `assignedIssues` value,
   written straight into the collection *)
Definition clerk_busy : User.t :=
  User.mk 7 low_admin ["Zone E"] (Some "Parks") true (Some 3).
Definition clerk_free : User.t :=
  User.mk 8 low_admin ["Zone E"] (Some "Parks") true (Some 1).
Definition parks_office : list User.t := [clerk_busy; clerk_free].

Definition sample_db : DB :=
  mkDB (<[10%nat := pothole]> (<[11%nat := lamp]> (<[12%nat := leak]>
          (<[13%nat := sinkhole]> ∅))))
       [sysadmin; manager; john; jane; foreman]
       (<[0%nat := Notification.mk 3 issue_updated "Issue In Progress"
                     ("Your reported issue " ++ dq ++ "Street lamp out" ++ dq
                        ++ " is now being worked on")
                     (Some 11) false None medium]> ∅).

(* --------------------------------------------------------------------- *)
(* Issue.js: overdue check                                                *)
(* --------------------------------------------------------------------- *)

(* 1000 * 60 * 60 * 24 *)
Definition msPerDay : Z := 1000 * 60 * 60 * 24.

(* virtual 'daysSinceAssignment': null without assignedAt, otherwise
   Math.floor((Date.now() - this.assignedAt) / msPerDay). Dates are whole
   milliseconds, and the floor of the quotient is that of the exact one. *)
Definition daysSinceAssignment (now : Date) (this : Issue.t) : option Z :=
  match Issue.assignedAt this with
  | None => None
  | Some assignedAt => Some (Z.div (Z.of_nat now - Z.of_nat assignedAt) msPerDay)
  end.

(* What shouldEscalate can return: `a && b` hands back `a` itself when it
   is falsy (null or 0 here), else the comparison. *)
Inductive Answer :=
  | answer_null
  | answer_number (days : Z)
  | answer_bool (b : bool).

Definition answer_truthy (a : Answer) : bool :=
  match a with
  | answer_null => false
  | answer_number days => negb (bool_decide (days = 0%Z))
  | answer_bool b => b
  end.

(* issueSchema.methods.shouldEscalate *)
Definition shouldEscalate (now : Date) (this : Issue.t) : Answer :=
  if bool_decide (Issue.status this = pending)
     || bool_decide (Issue.status this = in_progress)
  then
    match daysSinceAssignment now this with
    | None => answer_null
    | Some days =>
        if bool_decide (days = 0%Z) then answer_number days
        else answer_bool (bool_decide (5 ≤ days)%Z)
    end
  else answer_bool false.

(* --------------------------------------------------------------------- *)
(* routes/issues.js: reading                                              *)
(* --------------------------------------------------------------------- *)

(* GET /api/issues/:id: an error response, or the issue *)
Definition getIssue (user : User.t) (id : ObjectId) (db : DB) : Response + Issue.t :=
  match issues db !! id with
  | None => inl (mkResponse 404 "Issue not found")
  | Some issue =>
      if bool_decide (User.role user = citizen)
         && negb (bool_decide (Issue.reportedBy issue = User._id user))
      then inl (mkResponse 403 "Access denied")
      else if bool_decide (User.role user = low_admin)
              && negb (bool_decide (Issue.assignedTo issue = Some (User._id user))
                       || bool_decide (Issue.assignedDepartment issue = User.department user)
                       || bool_decide (Issue.zone issue ∈ User.assignedZones user))
      then inl (mkResponse 403 "Access denied")
      else inr issue
  end.

(* The paging shared by the list routes: .skip((page - 1) * limit)
   .limit(limit) on the sorted result, and Math.ceil(total / limit). *)
Definition pageOf {A} (page limit : nat) (found : list A) : list A :=
  take limit (drop ((page - 1) * limit) found).

Definition totalPages (total limit : nat) : nat :=
  (total / limit + (if bool_decide (total mod limit = 0) then 0 else 1))%nat.

(* --------------------------------------------------------------------- *)
(* routes/notifications.js: bulk operations                               *)
(* --------------------------------------------------------------------- *)

(* Notification.countDocuments({ recipient: userId, isRead: false }) *)
Definition unreadCount (userId : ObjectId) (coll : gmap nat Notification.t) : nat :=
  size (filter (λ kv : nat * Notification.t,
                  Notification.recipient kv.2 = userId
                  ∧ Notification.isRead kv.2 = false) coll).

(* PUT /api/notifications/read-all: updateMany on the user's unread
   documents with { isRead: true, readAt: new Date() } *)
Definition putReadAll (now : Date) (user : User.t) (db : DB) : Response * DB :=
  (mkResponse 200 "All notifications marked as read",
   set_notifications
     ((λ n, if bool_decide (Notification.recipient n = User._id user
                            ∧ Notification.isRead n = false)
            then Notification.markAsRead now n else n)
        <$> notifications db) db).

(* DELETE /api/notifications: deleteMany({ recipient: req.user._id }) *)
Definition deleteAllNotifications (user : User.t) (db : DB) : Response * DB :=
  (mkResponse 200 "All notifications deleted successfully",
   set_notifications
     (filter (λ kv : nat * Notification.t,
                Notification.recipient kv.2 ≠ User._id user)
             (notifications db)) db).

(* --------------------------------------------------------------------- *)
(* routes/admin.js: reassignment                                          *)
(* --------------------------------------------------------------------- *)

(* The array `notifications` of POST /api/admin/reassign-issue. The test
   for a different previous assignee compares strings,
   previousAssignee.toString() !== newAssigneeId.toString(): they are equal
   only for the same ObjectId spelled in lower case. *)
Definition reassign_docs (issue : Issue.t) (newAssigneeId : RawId)
    (previousAssignee : option ObjectId) : list Notification.data :=
  Notification.mkData issue_assigned "Issue Reassigned to You"
    ("Issue " ++ dq ++ Issue.title issue ++ dq ++ " has been reassigned to you")
    (Some (Issue._id issue)) (parsed newAssigneeId)
    (Some (urgent_to_high (Issue.priority issue)))
  :: match previousAssignee with
     | Some previous =>
         if negb (bool_decide (previous = parsed newAssigneeId)
                  && canonical newAssigneeId)
         then [Notification.mkData issue_updated "Issue Reassigned"
                 ("Issue " ++ dq ++ Issue.title issue ++ dq
                    ++ " has been reassigned to another admin")
                 (Some (Issue._id issue)) previous (Some medium)]
         else []
     | None => []
     end.

(* `Reassigned${reason ? ': ' + reason : ''}` *)
Definition reassignReason (reason : option string) : string :=
  "Reassigned" ++ match reason with
                  | Some text => if bool_decide (text = "") then "" else ": " ++ text
                  | None => ""
                  end.

(* POST /api/admin/reassign-issue, behind requireHighAdmin *)
Definition postReassignIssue (now : Date) (user : User.t) (issueId : ObjectId)
    (newAssigneeId : RawId) (reason : option string) (db : DB) : Response * DB :=
  if negb (requireHighAdmin user) then (roleDenied, db) else
  match issues db !! issueId with
  | None => (mkResponse 404 "Issue not found", db)
  | Some issue =>
      match findUserById (parsed newAssigneeId) (users db) with
      | None => (mkResponse 400 "Invalid assignee", db)
      | Some newAssignee =>
          if negb (bool_decide (User.role newAssignee ∈ [low_admin; high_admin]))
          then (mkResponse 400 "Invalid assignee", db)
          else
            let previousAssignee := Issue.assignedTo issue in
            let issue1 := Issue.set_assignedTo (Some (parsed newAssigneeId)) issue in
            let issue2 := assignDepartment (User.department newAssignee) issue1 in
            let issue3 := Issue.set_assignedAt (Some now) issue2 in
            let issue4 :=
              Issue.addStatusChange in_progress (User._id user)
                (Some (reassignReason reason)) now issue3 in
            let db1 := save issue4 db in
            let notifications_ := reassign_docs issue4 newAssigneeId previousAssignee in
            let db2 :=
              if bool_decide (0 < length notifications_)%nat
              then set_notifications (insertMany notifications_ (notifications db1)) db1
              else db1 in
            (mkResponse 200 "Issue reassigned successfully", db2)
      end
  end.

(* --------------------------------------------------------------------- *)
(* routes/admin.js: manual escalation                                     *)
(* --------------------------------------------------------------------- *)

(* The array `notifications` of POST /api/admin/escalate-issue. *)
Definition escalate_docs (issue : Issue.t) (reason : string)
    : list Notification.data :=
  (match Issue.assignedTo issue with
   | Some assignee =>
       [Notification.mkData issue_escalated "Issue Escalated"
          ("Issue " ++ dq ++ Issue.title issue ++ dq
             ++ " has been escalated: " ++ reason)
          (Some (Issue._id issue)) assignee (Some high)]
   | None => []
   end)
  ++ [Notification.mkData issue_escalated "Issue Escalated"
        ("Your reported issue " ++ dq ++ Issue.title issue ++ dq
           ++ " has been escalated for priority attention")
        (Some (Issue._id issue)) (Issue.reportedBy issue) (Some high)].

(* POST /api/admin/escalate-issue, behind requireHighAdmin; `reason` is
   the body's string after the validator chain (trimmed, five characters
   or more) *)
Definition postEscalateIssue (now : Date) (user : User.t) (issueId : ObjectId)
    (reason : string) (db : DB) : Response * DB :=
  if negb (requireHighAdmin user) then (roleDenied, db) else
  match issues db !! issueId with
  | None => (mkResponse 404 "Issue not found", db)
  | Some issue =>
      if bool_decide (Issue.status issue = escalated)
      then (mkResponse 400 "Issue is already escalated", db)
      else
        let issue1 :=
          Issue.addStatusChange escalated (User._id user) (Some reason) now issue in
        let issue2 := Issue.set_escalatedAt (Some now) issue1 in
        let issue3 := Issue.set_escalationReason (Some reason) issue2 in
        let db1 := save issue3 db in
        let notifications_ := escalate_docs issue3 reason in
        let db2 :=
          if bool_decide (0 < length notifications_)%nat
          then set_notifications (insertMany notifications_ (notifications db1)) db1
          else db1 in
        (mkResponse 200 "Issue escalated successfully", db2)
  end.

(* --------------------------------------------------------------------- *)
(* routes/users.js: deactivation                                          *)
(* --------------------------------------------------------------------- *)

Definition set_users (v : list User.t) (db : DB) : DB :=
  mkDB (issues db) v (notifications db).

(* user.isActive = false *)
Definition deactivate (user : User.t) : User.t :=
  User.mk (User._id user) (User.role user) (User.assignedZones user)
    (User.department user) false (User.assignedIssues user).

(* user.save(): the document with that _id is replaced *)
Fixpoint saveUser (user : User.t) (us : list User.t) : list User.t :=
  match us with
  | [] => []
  | u :: rest =>
      if bool_decide (User._id u = User._id user)
      then user :: rest
      else u :: saveUser user rest
  end.

(* DELETE /api/users/:id, behind requireRole(['high_admin']) *)
Definition deleteUser (actor : User.t) (id : ObjectId) (db : DB) : Response * DB :=
  if negb (requireRole [high_admin] actor) then (roleDenied, db) else
  match findUserById id (users db) with
  | None => (mkResponse 404 "User not found", db)
  | Some user =>
      if bool_decide (User.role user = high_admin)
         && bool_decide (length (findHighAdmins (users db)) ≤ 1)%nat
      then (mkResponse 400 "Cannot delete the last high admin", db)
      else
        (mkResponse 200 "User deactivated successfully",
         set_users (saveUser (deactivate user) (users db)) db)
  end.

(* --------------------------------------------------------------------- *)
(* Invariants of the stored issues                                        *)
(* --------------------------------------------------------------------- *)

(* every stored issue satisfies P *)
Definition all_issues (P : Issue.t → Prop) (db : DB) : Prop :=
  ∀ id issue, issues db !! id = Some issue → P issue.

(* assignedTo and assignedAt are set together *)
Definition assignment_stamped (issue : Issue.t) : Prop :=
  is_Some (Issue.assignedTo issue) ↔ is_Some (Issue.assignedAt issue).

#[global] Instance status_matches_history_dec issue :
  Decision (status_matches_history issue).
Proof.
  unfold status_matches_history.
  destruct (last (Issue.statusHistory issue)); apply _.
Defined.

#[global] Instance assignment_stamped_dec issue :
  Decision (assignment_stamped issue).
Proof. unfold assignment_stamped. apply _. Defined.

#[global] Instance all_issues_dec (P : Issue.t → Prop)
    `{∀ issue, Decision (P issue)} db : Decision (all_issues P db).
Proof.
  refine (cast_if (decide (map_Forall (λ _ issue, P issue) (issues db))));
    abstract (unfold all_issues, map_Forall in *; done).
Defined.

(* ===================================================================== *)
(* Properties                                                             *)
(* ===================================================================== *)

(* --------------------------------------------------------------------- *)
(* Workflow engine                                                        *)
(* --------------------------------------------------------------------- *)

Lemma requireRole_true_iff roles user :
  requireRole roles user = true ↔ User.role user ∈ roles.
Proof. unfold requireRole. apply bool_decide_eq_true. Qed.

Lemma requireRole_low_admin user :
  User.role user = low_admin → requireRole [low_admin; high_admin] user = true.
Proof. intros Hrole. apply requireRole_true_iff. rewrite Hrole. left. Qed.

Lemma isValidStatusTransition_true_iff cur new role :
  isValidStatusTransition cur new role = true ↔ spec_edge cur new.
Proof.
  destruct (decide (spec_edge cur new)) as [He | Hn].
  - split; [done |]. intros _. by destruct He.
  - split; [| done]. intros Hv. exfalso. apply Hn.
    destruct cur, new; try discriminate Hv; constructor.
Qed.

Lemma isValidStatusTransition_false_iff cur new role :
  isValidStatusTransition cur new role = false ↔ ¬ spec_edge cur new.
Proof.
  rewrite <- (isValidStatusTransition_true_iff cur new role).
  destruct (isValidStatusTransition cur new role); split; congruence.
Qed.

(** C1: for every current status, requested status and actor role,
    [isValidStatusTransition] answers true exactly when the pair is an edge
    of the table of section 4.1, and the answer is the same for every
    role. *)
Theorem isValidStatusTransition_edge_table cur new role :
  (isValidStatusTransition cur new role = true ↔ spec_edge cur new)
  ∧ (∀ role', isValidStatusTransition cur new role'
              = isValidStatusTransition cur new role).
Proof.
  split.
  - apply isValidStatusTransition_true_iff.
  - intros role'. reflexivity.
Qed.

(** C2 (as stated, refuted): Jane is not the reporter of the pending
    pothole issue; her request to move it to verified_solved, which is not
    an edge, is turned away by the permission check with 403, not with the
    invalid-transition answer. *)
Lemma putStatus_invalid_transition_may_be_403 :
  issues sample_db !! 10%nat = Some pothole
  ∧ ¬ spec_edge (Issue.status pothole) verified_solved
  ∧ putStatus 100 jane 10 verified_solved None sample_db
    = (mkResponse 403 "You cannot update this issue status", sample_db)
  ∧ (putStatus 100 jane 10 verified_solved None sample_db).1
    ≠ mkResponse 400 "Invalid status transition".
Proof.
  split; [by vm_compute |].
  split; [intros H; inversion H |].
  split; [by vm_compute |].
  vm_compute. discriminate.
Qed.

(** C2 (amended): when the requested status is not reachable from the
    issue's current status in the edge table, PUT /:id/status is rejected,
    with "Invalid status transition" (400) if the actor passes the
    permission check and with 403 otherwise, and the database is returned
    as it was: no status change, no history entry, no timestamp, no
    notification. *)
Theorem putStatus_invalid_transition_rejected
    now user id status reason db issue :
  issues db !! id = Some issue →
  ¬ spec_edge (Issue.status issue) status →
  putStatus now user id status reason db
  = (if canUpdateStatus user issue status
     then mkResponse 400 "Invalid status transition"
     else mkResponse 403 "You cannot update this issue status",
     db).
Proof.
  intros Hfind Hedge. unfold putStatus. rewrite Hfind.
  apply (isValidStatusTransition_false_iff _ _ (User.role user)) in Hedge.
  rewrite Hedge. by destruct (canUpdateStatus user issue status).
Qed.

Lemma putStatus_invalid_transition_rejected_witness :
  putStatus 100 john 10 reopened None sample_db
  = (mkResponse 400 "Invalid status transition", sample_db).
Proof.
  refine (putStatus_invalid_transition_rejected
            100 john 10 reopened None sample_db pothole _ _).
  - vm_compute. reflexivity.
  - intros H. inversion H.
Defined.

(* --------------------------------------------------------------------- *)
(* Access policy                                                          *)
(* --------------------------------------------------------------------- *)

(** C5 (as stated, refuted): the manager is a low_admin whose zones do not
    contain Zone C and who is not the assignee of the sinkhole issue, yet
    [canAssignIssue] grants him the assignment because his department is
    the issue's assigned department, and PUT /:id/assign goes through. *)
Lemma low_admin_same_department_can_assign :
  User.role manager = low_admin
  ∧ (Issue.zone sinkhole ∉ User.assignedZones manager)
  ∧ Issue.assignedTo sinkhole ≠ Some (User._id manager)
  ∧ canAssignIssue manager sinkhole = true
  ∧ issues sample_db !! 13%nat = Some sinkhole
  ∧ (putAssign 100 manager 13 2 None None sample_db).1
    = mkResponse 200 "Issue assigned successfully".
Proof.
  split; [done |].
  split; [by apply (bool_decide_unpack _) |].
  split; [discriminate |].
  repeat split; by vm_compute.
Qed.

Section OutsideLowAdmin.
Variables (user : User.t) (issue : Issue.t).
Hypothesis Hrole : User.role user = low_admin.
Hypothesis Hzone : Issue.zone issue ∉ User.assignedZones user.
Hypothesis Hassignee : Issue.assignedTo issue ≠ Some (User._id user).

Lemma outside_canUpdateStatus status : canUpdateStatus user issue status = false.
Proof.
  unfold canUpdateStatus. rewrite Hrole.
  by rewrite !bool_decide_eq_false_2.
Qed.

Lemma outside_hasIssueAccess : hasIssueAccess user issue = false.
Proof.
  unfold hasIssueAccess. rewrite Hrole.
  by rewrite !bool_decide_eq_false_2.
Qed.

Lemma outside_canAddWorkProof : canAddWorkProof user issue = false.
Proof.
  unfold canAddWorkProof. rewrite Hrole.
  by rewrite bool_decide_eq_false_2.
Qed.

Lemma outside_canAssignIssue :
  canAssignIssue user issue
  = bool_decide (User.department user = Issue.assignedDepartment issue).
Proof.
  unfold canAssignIssue. rewrite Hrole.
  by rewrite (bool_decide_eq_false_2 (_ ∈ _)).
Qed.
End OutsideLowAdmin.

(** C5 (amended): a low_admin whose assigned zones do not contain the
    issue's zone and who is not its assignee is denied status updates,
    comments and work-proof uploads on it, and is denied its assignment
    whenever their department differs from the issue's assigned department;
    each denied route answers 403 and leaves the database as it was. *)
Theorem low_admin_outside_zone_denied now user issue id db :
  User.role user = low_admin →
  Issue.zone issue ∉ User.assignedZones user →
  Issue.assignedTo issue ≠ Some (User._id user) →
  issues db !! id = Some issue →
  (∀ status reason,
     canUpdateStatus user issue status = false
     ∧ putStatus now user id status reason db
       = (mkResponse 403 "You cannot update this issue status", db))
  ∧ (hasIssueAccess user issue = false
     ∧ ∀ text isInternal,
         postComment now user id text isInternal db
         = (mkResponse 403 "Access denied", db))
  ∧ (canAddWorkProof user issue = false
     ∧ ∀ description files,
         postWorkProof now user id description files db
         = (mkResponse 403 "You cannot add work proof for this issue", db))
  ∧ (User.department user ≠ Issue.assignedDepartment issue →
     canAssignIssue user issue = false
     ∧ ∀ assignedTo assignedDepartment dueDate,
         putAssign now user id assignedTo assignedDepartment dueDate db
         = (mkResponse 403 "You cannot assign this issue", db)).
Proof.
  intros Hrole Hzone Hassignee Hfind.
  repeat split.
  - by apply outside_canUpdateStatus.
  - unfold putStatus. rewrite Hfind.
    by rewrite outside_canUpdateStatus.
  - by apply outside_hasIssueAccess.
  - intros text isInternal. unfold postComment. rewrite Hfind.
    by rewrite outside_hasIssueAccess.
  - by apply outside_canAddWorkProof.
  - intros description files. unfold postWorkProof.
    rewrite requireRole_low_admin by done. simpl. rewrite Hfind.
    by rewrite outside_canAddWorkProof.
  - rewrite outside_canAssignIssue by done. by apply bool_decide_eq_false_2.
  - intros assignedTo assignedDepartment dueDate.
    unfold putAssign. rewrite requireRole_low_admin by done. simpl.
    rewrite Hfind.
    rewrite outside_canAssignIssue by done.
    rewrite (bool_decide_eq_true_2 _ Hrole).
    by rewrite bool_decide_eq_false_2.
Qed.

Lemma low_admin_outside_zone_denied_witness :
  (∀ status reason,
     canUpdateStatus manager pothole status = false
     ∧ putStatus 100 manager 10 status reason sample_db
       = (mkResponse 403 "You cannot update this issue status", sample_db))
  ∧ (hasIssueAccess manager pothole = false
     ∧ ∀ text isInternal,
         postComment 100 manager 10 text isInternal sample_db
         = (mkResponse 403 "Access denied", sample_db))
  ∧ (canAddWorkProof manager pothole = false
     ∧ ∀ description files,
         postWorkProof 100 manager 10 description files sample_db
         = (mkResponse 403 "You cannot add work proof for this issue", sample_db))
  ∧ (User.department manager ≠ Issue.assignedDepartment pothole →
     canAssignIssue manager pothole = false
     ∧ ∀ assignedTo assignedDepartment dueDate,
         putAssign 100 manager 10 assignedTo assignedDepartment dueDate sample_db
         = (mkResponse 403 "You cannot assign this issue", sample_db)).
Proof.
  apply (low_admin_outside_zone_denied 100 manager pothole 10 sample_db).
  - reflexivity.
  - apply (bool_decide_unpack _). vm_compute. exact I.
  - simpl. discriminate.
  - vm_compute. reflexivity.
Defined.

(** C6: a citizen is granted a status update exactly when they reported
    the issue and ask for pending_verification or reopened, whatever the
    issue's state, and [canAssignIssue] never grants a citizen. *)
Theorem citizen_status_and_assign user issue newStatus :
  User.role user = citizen →
  (canUpdateStatus user issue newStatus = true ↔
     Issue.reportedBy issue = User._id user
     ∧ (newStatus = pending_verification ∨ newStatus = reopened))
  ∧ canAssignIssue user issue = false.
Proof.
  intros Hrole. unfold canUpdateStatus, canAssignIssue. rewrite Hrole.
  split; [| done].
  rewrite andb_true_iff, !bool_decide_eq_true.
  rewrite !elem_of_cons, elem_of_nil. tauto.
Qed.

Lemma citizen_status_and_assign_witness :
  (canUpdateStatus john pothole reopened = true ↔
     Issue.reportedBy pothole = User._id john
     ∧ (reopened = pending_verification ∨ reopened = reopened))
  ∧ canAssignIssue john pothole = false.
Proof.
  apply (citizen_status_and_assign john pothole reopened).
  reflexivity.
Defined.

(* --------------------------------------------------------------------- *)
(* Status history                                                         *)
(* --------------------------------------------------------------------- *)

Lemma addStatusChange_matches_history newStatus changedBy reason now issue :
  status_matches_history (Issue.addStatusChange newStatus changedBy reason now issue).
Proof.
  unfold status_matches_history, Issue.addStatusChange. simpl.
  by rewrite last_snoc.
Qed.

Lemma addStatusChange_appends newStatus changedBy reason now issue :
  Issue.statusHistory (Issue.addStatusChange newStatus changedBy reason now issue)
  = (Issue.statusHistory issue
       ++ [StatusChange.mk newStatus changedBy now (default "" reason)])%list
  ∧ Issue.status (Issue.addStatusChange newStatus changedBy reason now issue)
    = newStatus.
Proof. done. Qed.

Lemma stampStatus_matches_history status now issue :
  status_matches_history issue → status_matches_history (stampStatus status now issue).
Proof. by destruct status. Qed.

Lemma stampStatus_id status now issue :
  Issue._id (stampStatus status now issue) = Issue._id issue.
Proof. by destruct status. Qed.

Lemma issues_handleStatusChangeNotifications issue newStatus changedBy db :
  issues (handleStatusChangeNotifications issue newStatus changedBy db) = issues db.
Proof.
  unfold handleStatusChangeNotifications. by case_bool_decide.
Qed.

(* A status update that goes through leaves the stored issue with a
   history whose last entry is its status. *)
Lemma putStatus_matches_history now user id status reason db issue :
  issues db !! id = Some issue →
  code (putStatus now user id status reason db).1 = 200%nat →
  ∃ issue',
    issues (putStatus now user id status reason db).2 !! Issue._id issue = Some issue'
    ∧ Issue.status issue' = status
    ∧ status_matches_history issue'.
Proof.
  intros Hfind. unfold putStatus. rewrite Hfind.
  destruct (canUpdateStatus user issue status); [| discriminate].
  destruct (isValidStatusTransition _ _ _); [| discriminate].
  intros _. eexists. simpl.
  rewrite issues_handleStatusChangeNotifications. simpl.
  rewrite stampStatus_id. simpl. rewrite lookup_insert_eq.
  split; [done |]. split.
  - by destruct status.
  - apply stampStatus_matches_history, addStatusChange_matches_history.
Qed.

(* So does a manual assignment. *)
Lemma putAssign_matches_history now user id assignedTo assignedDepartment dueDate db issue :
  issues db !! id = Some issue →
  code (putAssign now user id assignedTo assignedDepartment dueDate db).1 = 200%nat →
  ∃ issue',
    issues (putAssign now user id assignedTo assignedDepartment dueDate db).2
      !! Issue._id issue = Some issue'
    ∧ Issue.status issue' = in_progress
    ∧ status_matches_history issue'.
Proof.
  intros Hfind. unfold putAssign.
  destruct (negb (requireRole _ _)); [discriminate |]. rewrite Hfind.
  destruct (_ && _); [discriminate |].
  destruct (findUserById _ _) as [assignedUser |]; [| discriminate].
  destruct (negb _); [discriminate |].
  intros _. eexists. simpl. rewrite lookup_insert_eq.
  split; [done |]. split; [done |].
  apply addStatusChange_matches_history.
Qed.

(* --------------------------------------------------------------------- *)
(* Assignment router                                                      *)
(* --------------------------------------------------------------------- *)

Lemma insert_by_assignedIssues_perm u sorted :
  insert_by_assignedIssues u sorted ≡ₚ u :: sorted.
Proof.
  induction sorted as [| v rest IH]; simpl; [done |].
  destruct (key_le _ _); [done |].
  rewrite IH. apply Permutation_swap.
Qed.

Lemma sort_by_assignedIssues_perm us : sort_by_assignedIssues us ≡ₚ us.
Proof.
  induction us as [| u us IH]; simpl; [done |].
  rewrite insert_by_assignedIssues_perm. by rewrite IH.
Qed.

(* Without stored keys the sort leaves the natural order alone. *)
Lemma sort_by_assignedIssues_no_key us :
  Forall (λ u, User.assignedIssues u = None) us →
  sort_by_assignedIssues us = us.
Proof.
  induction 1 as [| u us Hu _ IH]; simpl; [done |].
  rewrite IH. destruct us; simpl; [done |]. by rewrite Hu.
Qed.

Lemma findAssignee_Some zone us admin :
  findAssignee zone us = Some admin → admin ∈ us ∧ eligible zone admin.
Proof.
  unfold findAssignee. intros Hhead.
  apply head_Some_elem_of in Hhead.
  rewrite sort_by_assignedIssues_perm in Hhead.
  by apply list_elem_of_filter in Hhead as [? ?].
Qed.

Lemma findAssignee_None zone us :
  findAssignee zone us = None ↔ ∀ u, u ∈ us → ¬ eligible zone u.
Proof.
  unfold findAssignee. rewrite head_None. split.
  - intros Hnil u Hin Hel.
    assert (Hu : u ∈ sort_by_assignedIssues (filter (eligible zone) us)).
    { rewrite sort_by_assignedIssues_perm. by apply list_elem_of_filter. }
    rewrite Hnil in Hu. by apply elem_of_nil in Hu.
  - intros Hnone.
    destruct (filter (eligible zone) us) as [| u rest] eqn:Hf; [done |].
    assert (Hu : u ∈ filter (eligible zone) us) by (rewrite Hf; left).
    apply list_elem_of_filter in Hu as [Hel Hin]. by destruct (Hnone u Hin).
Qed.

(* With the schema as it is (no `assignedIssues` path), the router takes
   the first eligible admin of the directory. *)
Lemma findAssignee_no_key zone us :
  Forall (λ u, User.assignedIssues u = None) us →
  findAssignee zone us = head (filter (eligible zone) us).
Proof.
  intros Hkeys. unfold findAssignee.
  rewrite sort_by_assignedIssues_no_key; [done |].
  rewrite Forall_forall in Hkeys |- *.
  intros u Hu. apply Hkeys. by apply list_elem_of_filter in Hu as [_ ?].
Qed.

(* No eligible admin: the router changes nothing. *)
Lemma autoAssignIssue_no_eligible now issue db :
  (∀ u, u ∈ users db → ¬ eligible (Issue.zone issue) u) →
  autoAssignIssue now issue db = (issue, db).
Proof.
  intros Hnone. unfold autoAssignIssue.
  by rewrite (proj2 (findAssignee_None _ _) Hnone).
Qed.

(* An eligible admin was found: the fields the router writes. *)
Lemma autoAssignIssue_assigned now issue db admin :
  findAssignee (Issue.zone issue) (users db) = Some admin →
  let issue' := (autoAssignIssue now issue db).1 in
  Issue.assignedTo issue' = Some (User._id admin)
  ∧ Issue.assignedDepartment issue' = trim <$> User.department admin
  ∧ Issue.assignedAt issue' = Some now
  ∧ Issue.status issue' = in_progress
  ∧ Issue.statusHistory issue' = Issue.statusHistory issue.
Proof.
  intros Hfind. unfold autoAssignIssue. by rewrite Hfind.
Qed.

(* POST /api/issues with a priority of the enum and no eligible admin:
   still a 201, the issue is stored pending and unassigned. *)
Lemma postIssue_no_eligible now user title category zone priority db :
  is_Some (requestedPriority priority) →
  (∀ u, u ∈ users db → ¬ eligible zone u) →
  let r := postIssue now user title category zone priority db in
  code r.1 = 201%nat
  ∧ ∃ issue, issues r.2 !! fresh (dom (issues db)) = Some issue
      ∧ Issue.status issue = pending
      ∧ Issue.assignedTo issue = None
      ∧ Issue.statusHistory issue = [].
Proof.
  intros [p Hp] Hnone. unfold postIssue. rewrite Hp.
  rewrite autoAssignIssue_no_eligible by done.
  simpl. split; [done |]. eexists. by rewrite lookup_insert_eq.
Qed.

(** C3 (the code breaks the claim): John reports an issue in Zone B; the
    manager is eligible, and autoAssignIssue stores the issue with status
    in_progress and an empty status history, so the status is not that of
    the last history entry. *)
Theorem autoAssign_bypasses_status_history :
  let db' := (postIssue 100 john "Bench broken" "parks" "Zone B" None sample_db).2 in
  ∃ issue,
    issues db' !! fresh (dom (issues sample_db)) = Some issue
    ∧ Issue.assignedTo issue = Some (User._id manager)
    ∧ Issue.status issue = in_progress
    ∧ Issue.statusHistory issue = []
    ∧ ¬ status_matches_history issue.
Proof.
  eexists. split; [by vm_compute |]. by vm_compute.
Qed.

(** C4 (the code breaks the claim): the manager and the foreman are both
    active low_admins of Zone A; the manager has two open issues, the
    foreman one, and the router still picks the manager, who comes first in
    the directory. *)
Theorem autoAssign_ignores_open_issue_count :
  let db' := (postIssue 100 john "Bin overflowing" "garbage" "Zone A" None sample_db).2 in
  eligible "Zone A" manager ∧ eligible "Zone A" foreman
  ∧ manager ∈ users sample_db ∧ foreman ∈ users sample_db
  ∧ openIssueCount sample_db (User._id manager) = 2%nat
  ∧ openIssueCount sample_db (User._id foreman) = 1%nat
  ∧ ∃ issue,
      issues db' !! fresh (dom (issues sample_db)) = Some issue
      ∧ Issue.assignedTo issue = Some (User._id manager).
Proof.
  cbv zeta.
  split; [by apply (bool_decide_unpack _) |].
  split; [by apply (bool_decide_unpack _) |].
  split; [simpl; set_solver |].
  split; [simpl; set_solver |].
  split; [by vm_compute |]. split; [by vm_compute |].
  eexists. split; by vm_compute.
Qed.

(* --------------------------------------------------------------------- *)
(* Storing notifications                                                  *)
(* --------------------------------------------------------------------- *)

Lemma insertMany_cons d docs (coll : gmap nat Notification.t) :
  insertMany (d :: docs) coll
  = insertMany docs (<[fresh (dom coll) := Notification.create d]> coll).
Proof. done. Qed.

Lemma fresh_lookup_None (coll : gmap nat Notification.t) :
  coll !! fresh (dom coll) = None.
Proof. apply not_elem_of_dom, is_fresh. Qed.

Lemma insertMany_lookup_old docs (coll : gmap nat Notification.t) k n :
  coll !! k = Some n → insertMany docs coll !! k = Some n.
Proof.
  revert coll. induction docs as [| d docs IH]; intros coll Hk; [done |].
  rewrite insertMany_cons. apply IH.
  rewrite lookup_insert_ne; [done |].
  intros <-. by rewrite fresh_lookup_None in Hk.
Qed.

Lemma insertMany_size docs (coll : gmap nat Notification.t) :
  size (insertMany docs coll) = (size coll + length docs)%nat.
Proof.
  revert coll. induction docs as [| d docs IH]; intros coll.
  - unfold insertMany. simpl. lia.
  - rewrite insertMany_cons, IH.
    rewrite map_size_insert_None by apply fresh_lookup_None. simpl. lia.
Qed.

Lemma insertMany_stores docs (coll : gmap nat Notification.t) d :
  d ∈ docs →
  ∃ k, coll !! k = None ∧ insertMany docs coll !! k = Some (Notification.create d).
Proof.
  revert coll. induction docs as [| d0 docs IH]; intros coll Hd.
  - by apply elem_of_nil in Hd.
  - rewrite insertMany_cons. apply elem_of_cons in Hd as [-> | Hd].
    + exists (fresh (dom coll)). split; [apply fresh_lookup_None |].
      apply insertMany_lookup_old. by rewrite lookup_insert_eq.
    + destruct (IH (<[fresh (dom coll) := Notification.create d0]> coll) Hd)
        as (k & Hnone & Hsome).
      exists k. split; [| done].
      apply lookup_insert_None in Hnone as [? _]. done.
Qed.



Lemma insertMany_subseteq docs (coll : gmap nat Notification.t) :
  coll ⊆ insertMany docs coll.
Proof.
  apply map_subseteq_spec. intros k n. apply insertMany_lookup_old.
Qed.

(* Storing new notifications never overwrites or drops a stored one,
   adds exactly as many documents as it was given, and every document
   given is then found, with the schema defaults applied, under an id
   that was free before. *)
Lemma insertMany_adds_only docs (coll : gmap nat Notification.t) :
  coll ⊆ insertMany docs coll
  ∧ size (insertMany docs coll) = (size coll + length docs)%nat
  ∧ ∀ d, d ∈ docs →
      ∃ k, coll !! k = None
           ∧ insertMany docs coll !! k = Some (Notification.create d).
Proof.
  split; [apply insertMany_subseteq |].
  split; [apply insertMany_size |].
  intros d. apply insertMany_stores.
Qed.

Lemma notifications_createNotification payload recipient issue db :
  notifications db ⊆ notifications (createNotification payload recipient issue db).
Proof. apply insertMany_subseteq. Qed.

Lemma notifications_autoAssignIssue now issue db :
  notifications db ⊆ notifications (autoAssignIssue now issue db).2.
Proof.
  unfold autoAssignIssue. destruct (findAssignee _ _); [| done].
  apply insertMany_subseteq.
Qed.

Lemma findUserById_id id us user :
  findUserById id us = Some user → User._id user = id.
Proof.
  unfold findUserById. intros Hhead%head_Some_elem_of.
  by apply list_elem_of_filter in Hhead as [? _].
Qed.

(* --------------------------------------------------------------------- *)
(* Notification dispatcher                                                *)
(* --------------------------------------------------------------------- *)

Lemma Forall_map_all {A B} (f : A → B) (P : B → Prop) (l : list A) :
  (∀ x, P (f x)) → Forall P (map f l).
Proof. intros Hall. induction l; simpl; by constructor. Qed.

Lemma elem_of_findHighAdmins u us :
  u ∈ findHighAdmins us ↔ User.role u = high_admin ∧ u ∈ us.
Proof. unfold findHighAdmins. by rewrite list_elem_of_filter. Qed.

Lemma notifications_handleStatusChangeNotifications issue newStatus changedBy db :
  notifications (handleStatusChangeNotifications issue newStatus changedBy db)
  = insertMany (statusChange_docs issue newStatus (users db)) (notifications db).
Proof.
  unfold handleStatusChangeNotifications. case_bool_decide as Hlen; [done |].
  destruct (statusChange_docs issue newStatus (users db)); [done |].
  simpl in Hlen. lia.
Qed.

(* The 'escalated' case of the dispatcher builds exactly one record per
   high_admin user, in directory order, each of type issue_escalated and
   priority high, and nothing else: issue.assignedTo is not read, so the
   assignee gets a record only by being a high_admin. These records are
   what PUT /:id/status stores. *)
Lemma escalated_notifies_high_admins issue us :
  let docs := statusChange_docs issue escalated us in
  map Notification.d_recipient docs = map User._id (findHighAdmins us)
  ∧ (∀ u, u ∈ findHighAdmins us ↔ User.role u = high_admin ∧ u ∈ us)
  ∧ Forall (λ d, Notification.d_type d = issue_escalated
                 ∧ Notification.d_relatedIssue d = Some (Issue._id issue)
                 ∧ Notification.priority (Notification.create d) = high) docs
  ∧ ∀ changedBy db,
      notifications (handleStatusChangeNotifications issue escalated changedBy db)
      = insertMany (statusChange_docs issue escalated (users db)) (notifications db).
Proof.
  cbv zeta. split; [| split; [| split]].
  - simpl. by rewrite map_map.
  - intros u. apply elem_of_findHighAdmins.
  - simpl. by apply Forall_map_all.
  - intros changedBy db. apply notifications_handleStatusChangeNotifications.
Qed.


(** C7 (the code breaks the claim): the sinkhole issue is assigned to the
    foreman and the directory has one high_admin. When the issue is
    escalated through PUT /:id/status, the records stored are one for the
    high_admin and none for the assignee; when it is escalated through
    POST /api/admin/escalate-issue, they are one for the assignee and one
    for the reporter and none for the high_admin. On both paths every
    record has priority high. *)
Theorem escalation_records_depend_on_route :
  let by_status := putStatus 100 foreman 13 escalated None sample_db in
  let status_docs := statusChange_docs sinkhole escalated (users sample_db) in
  let by_admin := postEscalateIssue 100 sysadmin 13 "Road is closed" sample_db in
  let admin_docs := escalate_docs sinkhole "Road is closed" in
  Issue.assignedTo sinkhole = Some (User._id foreman)
  ∧ Issue.reportedBy sinkhole = User._id jane
  ∧ findHighAdmins (users sample_db) = [sysadmin]
  ∧ code by_status.1 = 200%nat
  ∧ notifications by_status.2 = insertMany status_docs (notifications sample_db)
  ∧ map Notification.d_recipient status_docs = [User._id sysadmin]
  ∧ code by_admin.1 = 200%nat
  ∧ notifications by_admin.2 = insertMany admin_docs (notifications sample_db)
  ∧ map Notification.d_recipient admin_docs = [User._id foreman; User._id jane]
  ∧ Forall (λ d, Notification.d_type d = issue_escalated
                 ∧ Notification.d_priority d = Some high)
      (status_docs ++ admin_docs)%list.
Proof.
  cbv zeta. split_and!; try by vm_compute.
  vm_compute. by repeat constructor.
Qed.

(* What each route hands to the notification store. *)
















(* --------------------------------------------------------------------- *)
(* Comments                                                               *)
(* --------------------------------------------------------------------- *)

(* Whatever was requested, `isInternal && false` is stored as false (or
   not stored at all). *)
Lemma castBoolean_js_and_false v stored :
  castBoolean (js_and v false) = Some stored → stored = false.
Proof.
  unfold js_and. destruct v as [[] | [| n] | s]; simpl.
  - by intros [= <-].
  - by intros [= <-].
  - by intros [= <-].
  - by intros [= <-].
  - case_bool_decide as Hs; simpl.
    + subst s. by vm_compute.
    + by intros [= <-].
Qed.

(** C9: a comment that POST /:id/comments stores for a citizen has its
    internal flag false whatever value was requested; a stored comment
    with the flag true was written by a low_admin or a high_admin. *)
Theorem comment_internal_flag now user id text isInternal db :
  code (postComment now user id text isInternal db).1 = 200%nat →
  ∃ issue comment,
    issues db !! id = Some issue
    ∧ issues (postComment now user id text isInternal db).2 !! Issue._id issue
      = Some (Issue.set_comments (Issue.comments issue ++ [comment])%list issue)
    ∧ Comment.text comment = text
    ∧ Comment.author comment = User._id user
    ∧ (User.role user = citizen → Comment.isInternal comment = false)
    ∧ (Comment.isInternal comment = true →
       User.role user = low_admin ∨ User.role user = high_admin).
Proof.
  unfold postComment.
  destruct (issues db !! id) as [issue |]; [| discriminate].
  destruct (hasIssueAccess user issue); simpl; [| discriminate].
  destruct (castBoolean _) as [stored |] eqn:Hcast; [| discriminate].
  intros _. exists issue, (Comment.mk text (User._id user) now stored).
  simpl. rewrite lookup_insert_eq.
  assert (Hcitizen : User.role user = citizen → stored = false).
  { intros Hrole. rewrite Hrole in Hcast.
    by apply castBoolean_js_and_false in Hcast. }
  repeat split; [done |].
  intros ->. destruct (User.role user); [| by left | by right].
  by discriminate Hcitizen.
Qed.

Lemma comment_internal_flag_witness :
  ∃ issue comment,
    issues sample_db !! 10%nat = Some issue
    ∧ issues (postComment 100 john 10 "Any news?" (Some (js_string "true")) sample_db).2
        !! Issue._id issue
      = Some (Issue.set_comments (Issue.comments issue ++ [comment])%list issue)
    ∧ Comment.text comment = "Any news?"
    ∧ Comment.author comment = User._id john
    ∧ (User.role john = citizen → Comment.isInternal comment = false)
    ∧ (Comment.isInternal comment = true →
       User.role john = low_admin ∨ User.role john = high_admin).
Proof.
  apply (comment_internal_flag 100 john 10 "Any news?"
           (Some (js_string "true")) sample_db).
  vm_compute. reflexivity.
Defined.

(* --------------------------------------------------------------------- *)
(* Notifications                                                          *)
(* --------------------------------------------------------------------- *)

(** C10: on a notification addressed to someone else, both
    PUT /:id/read and DELETE /:id answer 403 "Access denied" and leave
    the database as it was; on the recipient's own notification,
    PUT /:id/read stores it with the read flag true and the read time
    set, its other fields as before. *)
Theorem notification_owner_only now user id db notification :
  notifications db !! id = Some notification →
  (Notification.recipient notification ≠ User._id user →
     putRead now user id db = (mkResponse 403 "Access denied", db)
     ∧ deleteNotification user id db = (mkResponse 403 "Access denied", db))
  ∧ (Notification.recipient notification = User._id user →
     ∃ notification',
       putRead now user id db
       = (mkResponse 200 "Notification marked as read",
          set_notifications (<[id := notification']> (notifications db)) db)
       ∧ Notification.isRead notification' = true
       ∧ Notification.readAt notification' = Some now
       ∧ Notification.recipient notification' = Notification.recipient notification
       ∧ Notification.type notification' = Notification.type notification
       ∧ Notification.title notification' = Notification.title notification
       ∧ Notification.message notification' = Notification.message notification
       ∧ Notification.relatedIssue notification'
         = Notification.relatedIssue notification
       ∧ Notification.priority notification' = Notification.priority notification).
Proof.
  intros Hfind. unfold putRead, deleteNotification. rewrite Hfind. split.
  - intros Hother. by rewrite bool_decide_eq_false_2.
  - intros Hown. rewrite bool_decide_eq_true_2 by done. simpl.
    by exists (Notification.markAsRead now notification).
Qed.

Lemma notification_owner_only_witness :
  (putRead 100 jane 0 sample_db = (mkResponse 403 "Access denied", sample_db)
   ∧ deleteNotification jane 0 sample_db
     = (mkResponse 403 "Access denied", sample_db))
  ∧ ∃ notification',
      putRead 100 john 0 sample_db
      = (mkResponse 200 "Notification marked as read",
         set_notifications (<[0%nat := notification']> (notifications sample_db))
           sample_db)
      ∧ Notification.isRead notification' = true
      ∧ Notification.readAt notification' = Some 100%nat.
Proof.
  split.
  - refine (proj1 (notification_owner_only 100 jane 0 sample_db _ _) _).
    + vm_compute. reflexivity.
    + simpl. discriminate.
  - destruct (proj2 (notification_owner_only 100 john 0 sample_db _ eq_refl) eq_refl)
      as (notification' & Hput & Hread & Hat & _).
    by exists notification'.
Defined.

(* ===================================================================== *)
(* Further properties of the routes                                       *)
(* ===================================================================== *)

(* --------------------------------------------------------------------- *)
(* All-or-nothing                                                         *)
(* --------------------------------------------------------------------- *)

Lemma putStatus_atomic now user id status reason db :
  code (putStatus now user id status reason db).1 = 200%nat
  ∨ (putStatus now user id status reason db).2 = db.
Proof.
  unfold putStatus. destruct (issues db !! id); [| by right].
  destruct (negb (canUpdateStatus _ _ _)); [by right |].
  destruct (negb (isValidStatusTransition _ _ _)); [by right | by left].
Qed.

Lemma putAssign_atomic now user id assignedTo assignedDepartment dueDate db :
  code (putAssign now user id assignedTo assignedDepartment dueDate db).1 = 200%nat
  ∨ (putAssign now user id assignedTo assignedDepartment dueDate db).2 = db.
Proof.
  unfold putAssign. destruct (negb (requireRole _ _)); [by right |].
  destruct (issues db !! id); [| by right].
  destruct (_ && _); [by right |].
  destruct (findUserById _ _); [| by right].
  destruct (negb _); [by right | by left].
Qed.

Lemma postComment_atomic now user id text isInternal db :
  code (postComment now user id text isInternal db).1 = 200%nat
  ∨ (postComment now user id text isInternal db).2 = db.
Proof.
  unfold postComment. destruct (issues db !! id); [| by right].
  destruct (negb (hasIssueAccess _ _)); [by right |].
  destruct (castBoolean _); [by left | by right].
Qed.

Lemma postWorkProof_atomic now user id description files db :
  code (postWorkProof now user id description files db).1 = 200%nat
  ∨ (postWorkProof now user id description files db).2 = db.
Proof.
  unfold postWorkProof. destruct (negb (requireRole _ _)); [by right |].
  destruct (issues db !! id); [| by right].
  destruct (negb (canAddWorkProof _ _)); [by right | by left].
Qed.

Lemma postReassignIssue_atomic now user issueId newAssigneeId reason db :
  code (postReassignIssue now user issueId newAssigneeId reason db).1 = 200%nat
  ∨ (postReassignIssue now user issueId newAssigneeId reason db).2 = db.
Proof.
  unfold postReassignIssue. destruct (negb (requireHighAdmin _)); [by right |].
  destruct (issues db !! issueId); [| by right].
  destruct (findUserById _ _); [| by right].
  destruct (negb _); [by right | by left].
Qed.

Lemma putRead_atomic now user id db :
  code (putRead now user id db).1 = 200%nat ∨ (putRead now user id db).2 = db.
Proof.
  unfold putRead. destruct (notifications db !! id); [| by right].
  destruct (negb _); [by right | by left].
Qed.

Lemma deleteNotification_atomic user id db :
  code (deleteNotification user id db).1 = 200%nat
  ∨ (deleteNotification user id db).2 = db.
Proof.
  unfold deleteNotification. destruct (notifications db !! id); [| by right].
  destruct (negb _); [by right | by left].
Qed.

Lemma deleteUser_atomic actor id db :
  code (deleteUser actor id db).1 = 200%nat ∨ (deleteUser actor id db).2 = db.
Proof.
  unfold deleteUser. destruct (negb (requireRole _ _)); [by right |].
  destruct (findUserById _ _); [| by right].
  destruct (_ && _); [by right | by left].
Qed.

(** X1: every route that can refuse a request either answers 200 or hands
    the database back exactly as it received it. *)
Theorem refused_requests_change_nothing now user id db :
  (∀ status reason,
     code (putStatus now user id status reason db).1 = 200%nat
     ∨ (putStatus now user id status reason db).2 = db)
  ∧ (∀ assignedTo assignedDepartment dueDate,
       code (putAssign now user id assignedTo assignedDepartment dueDate db).1 = 200%nat
       ∨ (putAssign now user id assignedTo assignedDepartment dueDate db).2 = db)
  ∧ (∀ text isInternal,
       code (postComment now user id text isInternal db).1 = 200%nat
       ∨ (postComment now user id text isInternal db).2 = db)
  ∧ (∀ description files,
       code (postWorkProof now user id description files db).1 = 200%nat
       ∨ (postWorkProof now user id description files db).2 = db)
  ∧ (∀ newAssigneeId reason,
       code (postReassignIssue now user id newAssigneeId reason db).1 = 200%nat
       ∨ (postReassignIssue now user id newAssigneeId reason db).2 = db)
  ∧ (code (putRead now user id db).1 = 200%nat ∨ (putRead now user id db).2 = db)
  ∧ (code (deleteNotification user id db).1 = 200%nat
     ∨ (deleteNotification user id db).2 = db)
  ∧ (code (deleteUser user id db).1 = 200%nat ∨ (deleteUser user id db).2 = db).
Proof.
  repeat split; intros.
  - apply putStatus_atomic.
  - apply putAssign_atomic.
  - apply postComment_atomic.
  - apply postWorkProof_atomic.
  - apply postReassignIssue_atomic.
  - apply putRead_atomic.
  - apply deleteNotification_atomic.
  - apply deleteUser_atomic.
Qed.

(* --------------------------------------------------------------------- *)
(* Status updates                                                         *)
(* --------------------------------------------------------------------- *)

(** X2: PUT /:id/status answers 200 exactly when the issue exists, the
    actor passes canUpdateStatus, and the requested status is an edge of
    the transition table from the issue's current status. *)
Theorem putStatus_success_iff now user id status reason db :
  code (putStatus now user id status reason db).1 = 200%nat
  ↔ ∃ issue,
      issues db !! id = Some issue
      ∧ canUpdateStatus user issue status = true
      ∧ spec_edge (Issue.status issue) status.
Proof.
  unfold putStatus. destruct (issues db !! id) as [issue |]; simpl.
  - destruct (canUpdateStatus user issue status) eqn:Hcan; simpl.
    + destruct (isValidStatusTransition _ _ _) eqn:Hvalid; simpl.
      * apply isValidStatusTransition_true_iff in Hvalid. naive_solver.
      * apply isValidStatusTransition_false_iff in Hvalid.
        split; [discriminate |]. intros (? & [= <-] & _ & ?). done.
    + split; [discriminate |]. intros (? & [= <-] & ? & _). congruence.
  - split; [discriminate |]. by intros (? & ? & _).
Qed.

(** X3: a status update that goes through stores the issue with the new
    status, one more history entry (status, actor, time, reason or ''),
    the timestamp that belongs to the new status set to the current time
    and the other two left alone; nothing else of the issue changes. *)
Theorem putStatus_effect now user id status reason db issue :
  issues db !! id = Some issue →
  code (putStatus now user id status reason db).1 = 200%nat →
  ∃ issue',
    issues (putStatus now user id status reason db).2 !! Issue._id issue = Some issue'
    ∧ Issue.status issue' = status
    ∧ Issue.statusHistory issue'
      = (Issue.statusHistory issue
           ++ [StatusChange.mk status (User._id user) now (default "" reason)])%list
    ∧ Issue.resolvedAt issue'
      = (if bool_decide (status = pending_verification) then Some now
         else Issue.resolvedAt issue)
    ∧ Issue.verifiedAt issue'
      = (if bool_decide (status = verified_solved) then Some now
         else Issue.verifiedAt issue)
    ∧ Issue.escalatedAt issue'
      = (if bool_decide (status = escalated) then Some now
         else Issue.escalatedAt issue)
    ∧ Issue.set_escalatedAt (Issue.escalatedAt issue)
        (Issue.set_verifiedAt (Issue.verifiedAt issue)
           (Issue.set_resolvedAt (Issue.resolvedAt issue)
              (Issue.set_statusHistory (Issue.statusHistory issue)
                 (Issue.set_status (Issue.status issue) issue'))))
      = issue.
Proof.
  intros Hfind. unfold putStatus. rewrite Hfind.
  destruct (canUpdateStatus user issue status); [| discriminate].
  destruct (isValidStatusTransition _ _ _); [| discriminate].
  intros _. eexists. simpl.
  rewrite issues_handleStatusChangeNotifications. simpl.
  rewrite stampStatus_id. simpl. rewrite lookup_insert_eq.
  split; [done |]. destruct issue. by destruct status.
Qed.

Lemma putStatus_effect_witness :
  ∃ issue',
    issues (putStatus 100 sysadmin 10 escalated (Some "Sinking") sample_db).2
      !! Issue._id pothole = Some issue'
    ∧ Issue.status issue' = escalated
    ∧ Issue.escalatedAt issue' = Some 100%nat.
Proof.
  destruct (putStatus_effect 100 sysadmin 10 escalated (Some "Sinking")
              sample_db pothole)
    as (issue' & Hstored & Hstatus & _ & _ & _ & Hescalated & _).
  - vm_compute. reflexivity.
  - vm_compute. reflexivity.
  - exists issue'. by rewrite Hstored, Hstatus, Hescalated.
Defined.

(** X4: what a citizen can do to a status: only on an issue they
    reported, and only in_progress or escalated to pending_verification,
    or pending_verification or verified_solved to reopened. *)
Theorem citizen_putStatus_success_iff now user id status reason db issue :
  User.role user = citizen →
  issues db !! id = Some issue →
  code (putStatus now user id status reason db).1 = 200%nat
  ↔ Issue.reportedBy issue = User._id user
    ∧ ((status = pending_verification
        ∧ (Issue.status issue = in_progress ∨ Issue.status issue = escalated))
       ∨ (status = reopened
          ∧ (Issue.status issue = pending_verification
             ∨ Issue.status issue = verified_solved))).
Proof.
  intros Hrole Hfind. rewrite putStatus_success_iff. split.
  - intros (issue0 & Hfind0 & Hcan & Hedge).
    assert (issue0 = issue) as -> by congruence.
    unfold canUpdateStatus in Hcan. rewrite Hrole in Hcan.
    apply andb_true_iff in Hcan as [Hrep Hin].
    apply bool_decide_eq_true in Hrep. split; [done |].
    destruct Hedge; try (by vm_compute in Hin); naive_solver.
  - intros [Hrep Hcases]. exists issue. split; [done |].
    unfold canUpdateStatus. rewrite Hrole.
    rewrite (bool_decide_eq_true_2 _ Hrep). simpl.
    destruct Hcases as [[-> [-> | ->]] | [-> [-> | ->]]];
      split; by (reflexivity || constructor).
Qed.

Lemma citizen_putStatus_success_iff_witness :
  code (putStatus 100 jane 12 pending_verification None sample_db).1 = 200%nat
  ↔ Issue.reportedBy leak = User._id jane
    ∧ ((pending_verification = pending_verification
        ∧ (Issue.status leak = in_progress ∨ Issue.status leak = escalated))
       ∨ (pending_verification = reopened
          ∧ (Issue.status leak = pending_verification
             ∨ Issue.status leak = verified_solved))).
Proof.
  apply (citizen_putStatus_success_iff 100 jane 12 pending_verification None
           sample_db leak).
  - reflexivity.
  - vm_compute. reflexivity.
Defined.

(** X5: a status update never succeeds with the status the issue already
    has, and never puts an issue back to pending. *)
Theorem putStatus_never_same_never_pending now user id status reason db issue :
  issues db !! id = Some issue →
  code (putStatus now user id status reason db).1 = 200%nat →
  status ≠ Issue.status issue ∧ status ≠ pending.
Proof.
  intros Hfind Hok. apply putStatus_success_iff in Hok as (issue0 & Hfind0 & _ & Hedge).
  assert (issue0 = issue) as -> by congruence.
  split; intros Heq; rewrite Heq in Hedge; inversion Hedge; congruence.
Qed.

Lemma putStatus_never_same_never_pending_witness :
  escalated ≠ Issue.status pothole ∧ escalated ≠ pending.
Proof.
  apply (putStatus_never_same_never_pending 100 sysadmin 10 escalated None
           sample_db pothole).
  - vm_compute. reflexivity.
  - vm_compute. reflexivity.
Defined.

(* --------------------------------------------------------------------- *)
(* What each route writes                                                 *)
(* --------------------------------------------------------------------- *)

Lemma putStatus_issues now user id status reason db :
  issues (putStatus now user id status reason db).2 = issues db
  ∨ ∃ issue,
      issues db !! id = Some issue
      ∧ issues (putStatus now user id status reason db).2
        = <[Issue._id issue :=
              stampStatus status now
                (Issue.addStatusChange status (User._id user) reason now issue)]>
            (issues db).
Proof.
  unfold putStatus. destruct (issues db !! id) as [issue |]; [| by left].
  destruct (negb (canUpdateStatus _ _ _)); [by left |].
  destruct (negb (isValidStatusTransition _ _ _)); [by left |].
  right. exists issue. split; [done |]. simpl.
  rewrite issues_handleStatusChangeNotifications. simpl.
  by rewrite stampStatus_id.
Qed.

Lemma putAssign_issues now user id assignedTo assignedDepartment dueDate db :
  issues (putAssign now user id assignedTo assignedDepartment dueDate db).2 = issues db
  ∨ ∃ issue assignedUser,
      issues db !! id = Some issue
      ∧ findUserById assignedTo (users db) = Some assignedUser
      ∧ issues (putAssign now user id assignedTo assignedDepartment dueDate db).2
        = <[Issue._id issue :=
              Issue.addStatusChange in_progress (User._id user)
                (Some "Issue assigned") now
                (Issue.set_dueDate dueDate
                   (Issue.set_assignedAt (Some now)
                      (assignDepartment
                         (or_else assignedDepartment (User.department assignedUser))
                         (Issue.set_assignedTo (Some assignedTo) issue))))]>
            (issues db).
Proof.
  unfold putAssign. destruct (negb (requireRole _ _)); [by left |].
  destruct (issues db !! id) as [issue |]; [| by left].
  destruct (_ && _); [by left |].
  destruct (findUserById _ _) as [assignedUser |]; [| by left].
  destruct (negb _); [by left |].
  right. by exists issue, assignedUser.
Qed.

Lemma postComment_issues now user id text isInternal db :
  issues (postComment now user id text isInternal db).2 = issues db
  ∨ ∃ issue comment,
      issues db !! id = Some issue
      ∧ issues (postComment now user id text isInternal db).2
        = <[Issue._id issue :=
              Issue.set_comments (Issue.comments issue ++ [comment])%list issue]>
            (issues db).
Proof.
  unfold postComment. destruct (issues db !! id) as [issue |]; [| by left].
  destruct (negb (hasIssueAccess _ _)); [by left |].
  destruct (castBoolean _) as [stored |]; [| by left].
  right. by exists issue, (Comment.mk text (User._id user) now stored).
Qed.

Lemma postWorkProof_issues now user id description files db :
  issues (postWorkProof now user id description files db).2 = issues db
  ∨ ∃ issue proofs,
      issues db !! id = Some issue
      ∧ issues (postWorkProof now user id description files db).2
        = <[Issue._id issue :=
              Issue.set_workProof (Issue.workProof issue ++ proofs)%list issue]>
            (issues db).
Proof.
  unfold postWorkProof. destruct (negb (requireRole _ _)); [by left |].
  destruct (issues db !! id) as [issue |]; [| by left].
  destruct (negb (canAddWorkProof _ _)); [by left |].
  right. exists issue. eexists. by split.
Qed.

Lemma postReassignIssue_issues now user issueId newAssigneeId reason db :
  issues (postReassignIssue now user issueId newAssigneeId reason db).2 = issues db
  ∨ ∃ issue newAssignee,
      issues db !! issueId = Some issue
      ∧ findUserById (parsed newAssigneeId) (users db) = Some newAssignee
      ∧ issues (postReassignIssue now user issueId newAssigneeId reason db).2
        = <[Issue._id issue :=
              Issue.addStatusChange in_progress (User._id user)
                (Some (reassignReason reason)) now
                (Issue.set_assignedAt (Some now)
                   (assignDepartment (User.department newAssignee)
                      (Issue.set_assignedTo (Some (parsed newAssigneeId)) issue)))]>
            (issues db).
Proof.
  unfold postReassignIssue. destruct (negb (requireHighAdmin _)); [by left |].
  destruct (issues db !! issueId) as [issue |]; [| by left].
  destruct (findUserById _ _) as [newAssignee |]; [| by left].
  destruct (negb _); [by left |].
  right. exists issue, newAssignee. split; [done |]. split; [done |].
  simpl. by repeat case_match.
Qed.

Lemma users_handleStatusChangeNotifications issue newStatus changedBy db :
  users (handleStatusChangeNotifications issue newStatus changedBy db) = users db.
Proof. unfold handleStatusChangeNotifications. by case_bool_decide. Qed.

(** X6: a route that works on one issue leaves every other stored issue,
    and the user directory, as they were. *)
Theorem issue_routes_touch_one_issue now user id db issue other :
  issues db !! id = Some issue →
  other ≠ Issue._id issue →
  (∀ status reason,
     issues (putStatus now user id status reason db).2 !! other = issues db !! other
     ∧ users (putStatus now user id status reason db).2 = users db)
  ∧ (∀ assignedTo assignedDepartment dueDate,
       issues (putAssign now user id assignedTo assignedDepartment dueDate db).2 !! other
       = issues db !! other
       ∧ users (putAssign now user id assignedTo assignedDepartment dueDate db).2
         = users db)
  ∧ (∀ text isInternal,
       issues (postComment now user id text isInternal db).2 !! other
       = issues db !! other
       ∧ users (postComment now user id text isInternal db).2 = users db)
  ∧ (∀ description files,
       issues (postWorkProof now user id description files db).2 !! other
       = issues db !! other
       ∧ users (postWorkProof now user id description files db).2 = users db)
  ∧ (∀ newAssigneeId reason,
       issues (postReassignIssue now user id newAssigneeId reason db).2 !! other
       = issues db !! other
       ∧ users (postReassignIssue now user id newAssigneeId reason db).2 = users db).
Proof.
  intros Hfind Hother. repeat split.
  - destruct (putStatus_issues now user id status reason db)
      as [-> | (issue0 & Hfind0 & ->)]; [done |].
    assert (issue0 = issue) as -> by congruence. by rewrite lookup_insert_ne.
  - unfold putStatus. rewrite Hfind. repeat case_match; try done.
    simpl. by rewrite users_handleStatusChangeNotifications.
  - destruct (putAssign_issues now user id assignedTo assignedDepartment dueDate db)
      as [-> | (issue0 & ? & Hfind0 & _ & ->)]; [done |].
    assert (issue0 = issue) as -> by congruence. by rewrite lookup_insert_ne.
  - unfold putAssign. rewrite Hfind. by repeat case_match.
  - destruct (postComment_issues now user id text isInternal db)
      as [-> | (issue0 & ? & Hfind0 & ->)]; [done |].
    assert (issue0 = issue) as -> by congruence. by rewrite lookup_insert_ne.
  - unfold postComment. rewrite Hfind. by repeat case_match.
  - destruct (postWorkProof_issues now user id description files db)
      as [-> | (issue0 & ? & Hfind0 & ->)]; [done |].
    assert (issue0 = issue) as -> by congruence. by rewrite lookup_insert_ne.
  - unfold postWorkProof. rewrite Hfind. by repeat case_match.
  - destruct (postReassignIssue_issues now user id newAssigneeId reason db)
      as [-> | (issue0 & ? & Hfind0 & _ & ->)]; [done |].
    assert (issue0 = issue) as -> by congruence. by rewrite lookup_insert_ne.
  - unfold postReassignIssue. rewrite Hfind. by repeat case_match.
Qed.

Lemma issue_routes_touch_one_issue_witness :
  issues (putStatus 100 sysadmin 10 in_progress None sample_db).2 !! 11%nat
  = issues sample_db !! 11%nat
  ∧ users (putStatus 100 sysadmin 10 in_progress None sample_db).2
    = users sample_db.
Proof.
  refine (proj1 (issue_routes_touch_one_issue 100 sysadmin 10 sample_db pothole 11 _ _)
            in_progress None).
  - vm_compute. reflexivity.
  - simpl. discriminate.
Defined.

(** X7: no issue route loses or alters a stored notification: whatever
    the outcome, the notifications stored before are still stored, with
    the same content, afterwards. *)
Theorem issue_routes_keep_notifications now user id db :
  (∀ title category zone priority,
     notifications db
     ⊆ notifications (postIssue now user title category zone priority db).2)
  ∧ (∀ assignedTo assignedDepartment dueDate,
       notifications db
       ⊆ notifications (putAssign now user id assignedTo assignedDepartment dueDate db).2)
  ∧ (∀ status reason,
       notifications db ⊆ notifications (putStatus now user id status reason db).2)
  ∧ (∀ text isInternal,
       notifications db ⊆ notifications (postComment now user id text isInternal db).2)
  ∧ (∀ description files,
       notifications (postWorkProof now user id description files db).2
       = notifications db)
  ∧ (∀ newAssigneeId reason,
       notifications db
       ⊆ notifications (postReassignIssue now user id newAssigneeId reason db).2).
Proof.
  repeat split.
  - intros title category zone priority. unfold postIssue.
    destruct (requestedPriority priority) as [p |]; [| done].
    destruct (autoAssignIssue _ _ _) as [issue1 db2] eqn:Hauto. simpl.
    etrans; [| apply insertMany_subseteq].
    change db2 with (issue1, db2).2. rewrite <- Hauto.
    etrans; [| apply notifications_autoAssignIssue]. done.
  - intros assignedTo assignedDepartment dueDate. unfold putAssign.
    repeat case_match; try done. apply insertMany_subseteq.
  - intros status reason. unfold putStatus.
    repeat case_match; try done. simpl.
    rewrite notifications_handleStatusChangeNotifications.
    apply insertMany_subseteq.
  - intros text isInternal. unfold postComment.
    repeat case_match; try done. apply insertMany_subseteq.
  - intros description files. unfold postWorkProof. by repeat case_match.
  - intros newAssigneeId reason. unfold postReassignIssue.
    repeat case_match; try done. apply insertMany_subseteq.
Qed.

(* --------------------------------------------------------------------- *)
(* Invariants of the stored issues                                        *)
(* --------------------------------------------------------------------- *)

Lemma all_issues_insert (P : Issue.t → Prop) db db' key issue' :
  all_issues P db →
  P issue' →
  issues db' = <[key := issue']> (issues db) →
  all_issues P db'.
Proof.
  intros Hall Hnew Heq id issue. rewrite Heq.
  intros [[_ <-] | [_ Hold]]%lookup_insert_Some; [done |]. by eapply Hall.
Qed.

Lemma all_issues_same (P : Issue.t → Prop) db db' :
  all_issues P db → issues db' = issues db → all_issues P db'.
Proof. intros Hall Heq id issue. rewrite Heq. apply Hall. Qed.

(** X8: if the status of every stored issue is the status of its last
    history entry (or pending with an empty history), this is still so
    after a status update, a manual assignment, a reassignment, a comment
    or a work-proof upload, whatever their outcome. *)
Theorem routes_keep_status_history now user id db :
  all_issues status_matches_history db →
  (∀ status reason,
     all_issues status_matches_history (putStatus now user id status reason db).2)
  ∧ (∀ assignedTo assignedDepartment dueDate,
       all_issues status_matches_history
         (putAssign now user id assignedTo assignedDepartment dueDate db).2)
  ∧ (∀ newAssigneeId reason,
       all_issues status_matches_history
         (postReassignIssue now user id newAssigneeId reason db).2)
  ∧ (∀ text isInternal,
       all_issues status_matches_history
         (postComment now user id text isInternal db).2)
  ∧ (∀ description files,
       all_issues status_matches_history
         (postWorkProof now user id description files db).2).
Proof.
  intros Hall. repeat split.
  - intros status reason.
    destruct (putStatus_issues now user id status reason db)
      as [Heq | (issue & _ & Heq)]; [by eapply all_issues_same |].
    eapply all_issues_insert; [done | | done].
    apply stampStatus_matches_history, addStatusChange_matches_history.
  - intros assignedTo assignedDepartment dueDate.
    destruct (putAssign_issues now user id assignedTo assignedDepartment dueDate db)
      as [Heq | (issue & ? & _ & _ & Heq)]; [by eapply all_issues_same |].
    eapply all_issues_insert; [done | | done].
    apply addStatusChange_matches_history.
  - intros newAssigneeId reason.
    destruct (postReassignIssue_issues now user id newAssigneeId reason db)
      as [Heq | (issue & ? & _ & _ & Heq)]; [by eapply all_issues_same |].
    eapply all_issues_insert; [done | | done].
    apply addStatusChange_matches_history.
  - intros text isInternal.
    destruct (postComment_issues now user id text isInternal db)
      as [Heq | (issue & ? & Hfind & Heq)]; [by eapply all_issues_same |].
    eapply all_issues_insert; [done | | done]. by apply (Hall id issue).
  - intros description files.
    destruct (postWorkProof_issues now user id description files db)
      as [Heq | (issue & ? & Hfind & Heq)]; [by eapply all_issues_same |].
    eapply all_issues_insert; [done | | done]. by apply (Hall id issue).
Qed.

Lemma routes_keep_status_history_witness :
  bool_decide
    (all_issues status_matches_history
       (putStatus 100 sysadmin 10 in_progress None sample_db).2) = true.
Proof.
  apply bool_decide_eq_true_2.
  refine (proj1 (routes_keep_status_history 100 sysadmin 10 sample_db _)
            in_progress None).
  apply (bool_decide_unpack _). vm_compute. exact I.
Defined.

Lemma postIssue_issues now user title category zone priority db p :
  requestedPriority priority = Some p →
  ∃ issue',
    issues (postIssue now user title category zone priority db).2
    = <[fresh (dom (issues db)) := issue']> (issues db)
    ∧ Issue.set_status pending
        (Issue.set_assignedAt None
           (Issue.set_assignedDepartment None
              (Issue.set_assignedTo None issue')))
      = Issue.mk (fresh (dom (issues db))) title category p pending zone
          (User._id user) None None None None None None None [] [] [] None
    ∧ match findAssignee zone (users db) with
      | Some admin =>
          Issue.status issue' = in_progress
          ∧ Issue.assignedTo issue' = Some (User._id admin)
          ∧ Issue.assignedDepartment issue' = trim <$> User.department admin
          ∧ Issue.assignedAt issue' = Some now
      | None =>
          Issue.status issue' = pending
          ∧ Issue.assignedTo issue' = None
          ∧ Issue.assignedDepartment issue' = None
          ∧ Issue.assignedAt issue' = None
      end.
Proof.
  intros Hp. unfold postIssue, autoAssignIssue. rewrite Hp. simpl.
  destruct (findAssignee zone (users db)) as [admin |]; simpl.
  - eexists. split; [apply insert_insert_eq |]. done.
  - eexists. split; [done |]. done.
Qed.

Lemma postIssue_refused now user title category zone priority db :
  requestedPriority priority = None →
  postIssue now user title category zone priority db
  = (mkResponse 500 "Server error while creating issue", db).
Proof. intros Hp. unfold postIssue. by rewrite Hp. Qed.

(** X9: if in every stored issue the assignee and the assignment time are
    set together, this is still so after any issue route, creation with
    automatic assignment included. *)
Theorem routes_keep_assignment_stamped now user id db :
  all_issues assignment_stamped db →
  (∀ title category zone priority,
     all_issues assignment_stamped
       (postIssue now user title category zone priority db).2)
  ∧ (∀ status reason,
       all_issues assignment_stamped (putStatus now user id status reason db).2)
  ∧ (∀ assignedTo assignedDepartment dueDate,
       all_issues assignment_stamped
         (putAssign now user id assignedTo assignedDepartment dueDate db).2)
  ∧ (∀ newAssigneeId reason,
       all_issues assignment_stamped
         (postReassignIssue now user id newAssigneeId reason db).2)
  ∧ (∀ text isInternal,
       all_issues assignment_stamped
         (postComment now user id text isInternal db).2)
  ∧ (∀ description files,
       all_issues assignment_stamped
         (postWorkProof now user id description files db).2).
Proof.
  intros Hall. split_and!.
  - intros title category zone priority.
    destruct (requestedPriority priority) as [p |] eqn:Hp.
    2: { by rewrite postIssue_refused. }
    destruct (postIssue_issues now user title category zone priority db p Hp)
      as (issue' & Heq & _ & Hcase).
    eapply all_issues_insert; [done | | done].
    unfold assignment_stamped.
    destruct (findAssignee zone (users db));
      destruct Hcase as (_ & -> & _ & ->); split; intros [? ?]; by eauto.
  - intros status reason.
    destruct (putStatus_issues now user id status reason db)
      as [Heq | (issue & Hfind & Heq)]; [by eapply all_issues_same |].
    eapply all_issues_insert; [done | | done].
    specialize (Hall id issue Hfind). by destruct status.
  - intros assignedTo assignedDepartment dueDate.
    destruct (putAssign_issues now user id assignedTo assignedDepartment dueDate db)
      as [Heq | (issue & ? & _ & _ & Heq)]; [by eapply all_issues_same |].
    eapply all_issues_insert; [done | | done].
    unfold assignment_stamped. simpl. split; by eauto.
  - intros newAssigneeId reason.
    destruct (postReassignIssue_issues now user id newAssigneeId reason db)
      as [Heq | (issue & ? & _ & _ & Heq)]; [by eapply all_issues_same |].
    eapply all_issues_insert; [done | | done].
    unfold assignment_stamped. simpl. split; by eauto.
  - intros text isInternal.
    destruct (postComment_issues now user id text isInternal db)
      as [Heq | (issue & ? & Hfind & Heq)]; [by eapply all_issues_same |].
    eapply all_issues_insert; [done | | done]. by apply (Hall id issue).
  - intros description files.
    destruct (postWorkProof_issues now user id description files db)
      as [Heq | (issue & ? & Hfind & Heq)]; [by eapply all_issues_same |].
    eapply all_issues_insert; [done | | done]. by apply (Hall id issue).
Qed.

Lemma routes_keep_assignment_stamped_witness :
  bool_decide
    (all_issues assignment_stamped
       (postIssue 100 john "Bin overflowing" "garbage" "Zone A" None sample_db).2)
  = true.
Proof.
  apply bool_decide_eq_true_2.
  refine (proj1 (routes_keep_assignment_stamped 100 john 10 sample_db _)
            "Bin overflowing" "garbage" "Zone A" None).
  apply (bool_decide_unpack _). vm_compute. exact I.
Defined.

(* --------------------------------------------------------------------- *)
(* Creating, assigning, reassigning                                       *)
(* --------------------------------------------------------------------- *)

(** X10: POST /api/issues answers 500 and stores nothing when the
    request's priority is not one of the enum; when it answers 201, the
    new issue is stored under an id no stored issue had, so every stored
    issue is still there unchanged, and it carries the request's title,
    category, zone and priority (medium when none is given), the caller
    as reporter, and empty history, comments and work proof. *)
Theorem postIssue_adds_one_issue now user title category zone priority db :
  let r := postIssue now user title category zone priority db in
  (requestedPriority priority = None
   → r = (mkResponse 500 "Server error while creating issue", db))
  ∧ (code r.1 = 201%nat →
     ∃ p issue',
       requestedPriority priority = Some p
       ∧ issues db !! fresh (dom (issues db)) = None
       ∧ issues db ⊆ issues r.2
       ∧ issues r.2 !! fresh (dom (issues db)) = Some issue'
       ∧ Issue._id issue' = fresh (dom (issues db))
       ∧ Issue.title issue' = title
       ∧ Issue.category issue' = category
       ∧ Issue.zone issue' = zone
       ∧ Issue.priority issue' = p
       ∧ Issue.reportedBy issue' = User._id user
       ∧ Issue.statusHistory issue' = []
       ∧ Issue.comments issue' = []
       ∧ Issue.workProof issue' = []).
Proof.
  cbv zeta. split; [apply postIssue_refused |].
  destruct (requestedPriority priority) as [p |] eqn:Hp.
  2: { by rewrite postIssue_refused. }
  intros _.
  assert (Hfree : issues db !! fresh (dom (issues db)) = None)
    by apply not_elem_of_dom, is_fresh.
  destruct (postIssue_issues now user title category zone priority db p Hp)
    as (issue' & Heq & Hfields & _).
  exists p, issue'. split; [done |]. split; [done |]. rewrite Heq.
  split; [by apply insert_subseteq |].
  rewrite lookup_insert_eq. split; [done |].
  destruct issue'.
  unfold Issue.set_status, Issue.set_assignedAt, Issue.set_assignedDepartment,
    Issue.set_assignedTo in Hfields.
  simpl in Hfields. injection Hfields as -> -> -> -> -> -> _ _ _ _ -> -> -> _.
  done.
Qed.

Lemma postIssue_adds_one_issue_witness :
  postIssue 100 john "Tree down" "parks" "Zone D" (Some "critical") sample_db
  = (mkResponse 500 "Server error while creating issue", sample_db)
  ∧ ∃ p issue',
      requestedPriority (Some "urgent") = Some p
      ∧ issues sample_db !! fresh (dom (issues sample_db)) = None
      ∧ issues sample_db
        ⊆ issues (postIssue 100 john "Tree down" "parks" "Zone D" (Some "urgent")
                    sample_db).2
      ∧ issues (postIssue 100 john "Tree down" "parks" "Zone D" (Some "urgent")
                  sample_db).2 !! fresh (dom (issues sample_db)) = Some issue'
      ∧ Issue._id issue' = fresh (dom (issues sample_db))
      ∧ Issue.title issue' = "Tree down"
      ∧ Issue.category issue' = "parks"
      ∧ Issue.zone issue' = "Zone D"
      ∧ Issue.priority issue' = p
      ∧ Issue.reportedBy issue' = User._id john
      ∧ Issue.statusHistory issue' = []
      ∧ Issue.comments issue' = []
      ∧ Issue.workProof issue' = [].
Proof.
  split.
  - apply (proj1 (postIssue_adds_one_issue 100 john "Tree down" "parks" "Zone D"
                    (Some "critical") sample_db)).
    vm_compute. reflexivity.
  - apply (proj2 (postIssue_adds_one_issue 100 john "Tree down" "parks" "Zone D"
                    (Some "urgent") sample_db)).
    vm_compute. reflexivity.
Defined.

(** X11: when the directory has no active low_admin for the zone and
    POST /api/issues answers 201, the issue is stored pending, unassigned
    and without assignment time, and the only notifications written are
    the issue_created ones for the admins: nobody is told of an
    assignment. *)
Theorem postIssue_without_eligible_admin now user title category zone priority db :
  (∀ u, u ∈ users db → ¬ eligible zone u) →
  code (postIssue now user title category zone priority db).1 = 201%nat →
  let r := postIssue now user title category zone priority db in
  ∃ p,
    requestedPriority priority = Some p
    ∧ (∃ issue,
         issues r.2 !! fresh (dom (issues db)) = Some issue
         ∧ Issue.status issue = pending
         ∧ Issue.assignedTo issue = None
         ∧ Issue.assignedAt issue = None
         ∧ Issue.statusHistory issue = [])
    ∧ notifications r.2
      = insertMany
          (createNotification_docs
             (createdPayload category zone (fresh (dom (issues db))) p)
             to_admin None (users db))
          (notifications db)
    ∧ Forall (λ d, Notification.d_type d = issue_created)
        (createNotification_docs
           (createdPayload category zone (fresh (dom (issues db))) p)
           to_admin None (users db)).
Proof.
  intros Hnone. cbv zeta.
  destruct (requestedPriority priority) as [p |] eqn:Hp.
  2: { by rewrite postIssue_refused. }
  intros _. exists p. split; [done |].
  unfold postIssue. rewrite Hp.
  rewrite autoAssignIssue_no_eligible by done. simpl.
  split_and!; try done.
  - eexists. by rewrite lookup_insert_eq.
  - unfold createNotification_docs. by apply Forall_map_all.
Qed.

Lemma postIssue_without_eligible_admin_witness :
  ∃ p,
    requestedPriority None = Some p
    ∧ ∃ issue,
        issues (postIssue 100 john "Tree down" "parks" "Zone D" None sample_db).2
          !! fresh (dom (issues sample_db)) = Some issue
        ∧ Issue.status issue = pending
        ∧ Issue.assignedTo issue = None
        ∧ Issue.assignedAt issue = None
        ∧ Issue.statusHistory issue = [].
Proof.
  destruct (postIssue_without_eligible_admin 100 john "Tree down" "parks"
              "Zone D" None sample_db) as (p & Hp & Hissue & _).
  - intros u Hu. apply (bool_decide_unpack _).
    simpl in Hu. set_unfold in Hu.
    destruct Hu as [-> | [-> | [-> | [-> | [-> | []]]]]]; vm_compute; exact I.
  - vm_compute. reflexivity.
  - exists p. by split.
Defined.

Lemma admin_role_elem_of role :
  role ∈ [low_admin; high_admin] ↔ role = low_admin ∨ role = high_admin.
Proof. rewrite !elem_of_cons, elem_of_nil. tauto. Qed.

Lemma requireRole_admin_iff user :
  requireRole [low_admin; high_admin] user = true
  ↔ User.role user = low_admin ∨ User.role user = high_admin.
Proof. by rewrite requireRole_true_iff, admin_role_elem_of. Qed.

Lemma requireHighAdmin_iff user :
  requireHighAdmin user = true ↔ User.role user = high_admin.
Proof.
  unfold requireHighAdmin. rewrite requireRole_true_iff.
  rewrite elem_of_cons, elem_of_nil. tauto.
Qed.

(** X12: PUT /:id/assign answers 200 exactly when the actor is a low_admin
    or a high_admin (the route's role middleware), the issue exists, a
    low_admin actor is granted by canAssignIssue, and the target is a
    user of the directory with an admin role. The issue's current status
    and the target's active flag play no part. *)
Theorem putAssign_success_iff now user id assignedTo assignedDepartment dueDate db :
  code (putAssign now user id assignedTo assignedDepartment dueDate db).1 = 200%nat
  ↔ (User.role user = low_admin ∨ User.role user = high_admin)
    ∧ ∃ issue assignedUser,
        issues db !! id = Some issue
        ∧ (User.role user = low_admin → canAssignIssue user issue = true)
        ∧ findUserById assignedTo (users db) = Some assignedUser
        ∧ (User.role assignedUser = low_admin
           ∨ User.role assignedUser = high_admin).
Proof.
  unfold putAssign.
  destruct (requireRole [low_admin; high_admin] user) eqn:Hguard; simpl.
  2: { split; [discriminate |]. intros [Hadmin _].
       apply requireRole_admin_iff in Hadmin. congruence. }
  apply requireRole_admin_iff in Hguard.
  destruct (issues db !! id) as [issue |]; simpl.
  2: { split; [discriminate |]. by intros (_ & ? & ? & ? & _). }
  set (refused := bool_decide (User.role user = low_admin)
                  && negb (canAssignIssue user issue)).
  assert (Hrefused : refused = false
                     ↔ (User.role user = low_admin → canAssignIssue user issue = true)).
  { unfold refused. case_bool_decide; destruct (canAssignIssue user issue);
      simpl; intuition congruence. }
  destruct refused; simpl.
  { split; [discriminate |]. intros (_ & ? & ? & [= <-] & Hcan & _).
    apply Hrefused in Hcan. discriminate. }
  destruct (findUserById _ _) as [assignedUser |]; simpl.
  2: { split; [discriminate |]. by intros (_ & ? & ? & _ & _ & ? & _). }
  case_bool_decide as Hrole; simpl.
  - split; [| done]. intros _. split; [done |]. exists issue, assignedUser.
    split_and!; [done | by apply Hrefused | done |].
    by apply admin_role_elem_of.
  - split; [discriminate |]. intros (_ & ? & ? & _ & _ & [= <-] & Hadmin).
    by apply admin_role_elem_of in Hadmin.
Qed.

(** X13: a manual assignment that goes through stores the issue assigned
    to the target, stamped with the current time, in status in_progress
    with one more history entry "Issue assigned"; the department is the
    requested one, or the target's when none (or '') is requested, with
    surrounding white space trimmed off; and the due date is replaced by
    the requested one, so it is cleared when the request has none.
    Nothing else of the issue changes. *)
Theorem putAssign_effect now user id assignedTo assignedDepartment dueDate db issue :
  issues db !! id = Some issue →
  code (putAssign now user id assignedTo assignedDepartment dueDate db).1 = 200%nat →
  ∃ issue' assignedUser,
    issues (putAssign now user id assignedTo assignedDepartment dueDate db).2
      !! Issue._id issue = Some issue'
    ∧ findUserById assignedTo (users db) = Some assignedUser
    ∧ Issue.assignedTo issue' = Some assignedTo
    ∧ Issue.assignedAt issue' = Some now
    ∧ Issue.assignedDepartment issue'
      = trim <$> or_else assignedDepartment (User.department assignedUser)
    ∧ Issue.dueDate issue' = dueDate
    ∧ Issue.status issue' = in_progress
    ∧ Issue.statusHistory issue'
      = (Issue.statusHistory issue
           ++ [StatusChange.mk in_progress (User._id user) now "Issue assigned"])%list
    ∧ Issue.set_statusHistory (Issue.statusHistory issue)
        (Issue.set_status (Issue.status issue)
           (Issue.set_dueDate (Issue.dueDate issue)
              (Issue.set_assignedAt (Issue.assignedAt issue)
                 (Issue.set_assignedDepartment (Issue.assignedDepartment issue)
                    (Issue.set_assignedTo (Issue.assignedTo issue) issue')))))
      = issue.
Proof.
  intros Hfind. unfold putAssign.
  destruct (negb (requireRole _ _)); [discriminate |]. rewrite Hfind.
  destruct (_ && _); [discriminate |].
  destruct (findUserById _ _) as [assignedUser |]; [| discriminate].
  destruct (negb _); [discriminate |].
  intros _. eexists _, assignedUser. simpl. rewrite lookup_insert_eq.
  split; [done |]. by destruct issue.
Qed.

Lemma putAssign_effect_witness :
  ∃ issue',
    issues (putAssign 100 sysadmin 13 2 (Some " Roads ") None sample_db).2
      !! Issue._id sinkhole = Some issue'
    ∧ Issue.assignedTo issue' = Some 2%nat
    ∧ Issue.assignedDepartment issue' = Some "Roads"
    ∧ Issue.dueDate issue' = None
    ∧ Issue.status issue' = in_progress.
Proof.
  destruct (putAssign_effect 100 sysadmin 13 2 (Some " Roads ") None sample_db
              sinkhole)
    as (issue' & assignedUser & Hstored & Huser & Hto & _ & Hdept & Hdue
        & Hstatus & _).
  - vm_compute. reflexivity.
  - vm_compute. reflexivity.
  - exists issue'. rewrite Hstored, Hto, Hdue, Hstatus, Hdept.
    split_and!; done.
Defined.

(** X14: a permitted work-proof upload answers 200 and stores one entry
    per file of req.files, in order, after the entries already there,
    each signed by the uploader and dated now; nothing else of the issue
    changes and no notification is written. *)
Theorem postWorkProof_effect now user id description files db issue :
  issues db !! id = Some issue →
  canAddWorkProof user issue = true →
  ∃ proofs,
    postWorkProof now user id description files db
    = (mkResponse 200 "Work proof uploaded successfully",
       save (Issue.set_workProof (Issue.workProof issue ++ proofs)%list issue) db)
    ∧ map WorkProof.url proofs = map secure_url files
    ∧ map WorkProof.publicId proofs = map public_id files
    ∧ Forall (λ p, WorkProof.uploadedBy p = User._id user
                   ∧ WorkProof.uploadedAt p = now) proofs.
Proof.
  intros Hfind Hcan. unfold postWorkProof.
  assert (Hguard : requireRole [low_admin; high_admin] user = true).
  { apply requireRole_admin_iff. unfold canAddWorkProof in Hcan.
    destruct (User.role user); [discriminate | by left | by right]. }
  rewrite Hguard, Hfind, Hcan. simpl.
  eexists. split; [done |].
  rewrite !map_map. split; [done |]. split; [done |].
  by apply Forall_map_all.
Qed.

Lemma postWorkProof_effect_witness :
  ∃ proofs,
    postWorkProof 100 foreman 13 None sample_uploads sample_db
    = (mkResponse 200 "Work proof uploaded successfully",
       save (Issue.set_workProof (Issue.workProof sinkhole ++ proofs)%list sinkhole)
         sample_db)
    ∧ map WorkProof.url proofs = map secure_url sample_uploads
    ∧ map WorkProof.publicId proofs = map public_id sample_uploads
    ∧ Forall (λ p, WorkProof.uploadedBy p = User._id foreman
                   ∧ WorkProof.uploadedAt p = 100%nat) proofs.
Proof.
  apply (postWorkProof_effect 100 foreman 13 None sample_uploads sample_db sinkhole).
  - vm_compute. reflexivity.
  - vm_compute. reflexivity.
Defined.

(** X15: the records built for a reassignment: the new assignee gets the
    one issue_assigned record, first in the list; the previous assignee
    gets a separate issue_updated record of priority medium exactly when
    there was one and its id string differs from the id string of the
    request, that is, when it is a different user or the request spells
    the id other than in lower case. Unless the request names the current
    assignee in such a spelling, no user is addressed twice. *)
Theorem reassign_docs_recipients issue newAssigneeId previousAssignee :
  let docs := reassign_docs issue newAssigneeId previousAssignee in
  (∃ first rest,
     docs = first :: rest
     ∧ Notification.d_recipient first = parsed newAssigneeId
     ∧ Notification.d_type first = issue_assigned
     ∧ Forall (λ d, Notification.d_type d = issue_updated
                    ∧ Notification.d_priority d = Some medium) rest)
  ∧ (∀ previous,
       (∃ d, d ∈ docs ∧ Notification.d_recipient d = previous
             ∧ Notification.d_type d = issue_updated)
       ↔ previousAssignee = Some previous
         ∧ (previous ≠ parsed newAssigneeId ∨ canonical newAssigneeId = false))
  ∧ (NoDup (map Notification.d_recipient docs)
     ↔ ¬ (previousAssignee = Some (parsed newAssigneeId)
          ∧ canonical newAssigneeId = false)).
Proof.
  cbv zeta. unfold reassign_docs.
  destruct previousAssignee as [previous |]; simpl.
  - destruct (decide (previous = parsed newAssigneeId)) as [-> | Hdiff].
    + rewrite (bool_decide_eq_true_2 _ eq_refl). simpl.
      destruct (canonical newAssigneeId) eqn:Hcanon; simpl.
      * split_and!.
        -- eexists _, []. by split_and!.
        -- intros previous'. split.
           ++ by intros (d & ->%list_elem_of_singleton & _ & ?).
           ++ intros [[= <-] [? | ?]]; done.
        -- split; [by intros _ [_ ?] | intros _; apply NoDup_singleton].
      * split_and!.
        -- eexists _, [_]. split_and!; try done. by constructor.
        -- intros previous'. split.
           ++ intros (d & [-> | ->%list_elem_of_singleton]%elem_of_cons & Hrec & Htype);
                simpl in *; [discriminate |]. subst. split; [done | by right].
           ++ intros [[= <-] _]. eexists. split; [right; left |]. done.
        -- split.
           ++ intros [Hnotin _]%NoDup_cons. exfalso. apply Hnotin. left.
           ++ intros Hneg. exfalso. by apply Hneg.
    + rewrite (bool_decide_eq_false_2 _ Hdiff). simpl. split_and!.
      * eexists _, [_]. split_and!; try done. by constructor.
      * intros previous'. split.
        -- intros (d & [-> | ->%list_elem_of_singleton]%elem_of_cons & Hrec & Htype);
             simpl in *; [discriminate |]. subst. split; [done | by left].
        -- intros [[= <-] _]. eexists. split; [right; left |]. done.
      * split.
        -- intros _ [[= ?] _]. done.
        -- intros _. apply NoDup_cons. split; [| apply NoDup_singleton].
           intros Hin%list_elem_of_singleton. simpl in Hin. congruence.
  - split_and!.
    + eexists _, []. by split_and!.
    + intros previous. split.
      * by intros (d & ->%list_elem_of_singleton & _ & ?).
      * by intros [? _].
    + split; [by intros _ [? _] | intros _; apply NoDup_singleton].
Qed.

(** X16: POST /api/admin/reassign-issue answers 200 exactly when the actor
    is a high_admin (the route's role middleware), the issue exists and
    the new assignee is a user of the directory with an admin role,
    whatever the issue's status. It then stores the issue assigned to the
    new assignee, with the assignee's department (none if they have none),
    stamped now, in status in_progress with one more history entry; the
    due date and everything else stay, and exactly the reassignment
    records are added to the notifications. *)
Theorem postReassignIssue_effect now user issueId newAssigneeId reason db :
  let r := postReassignIssue now user issueId newAssigneeId reason db in
  code r.1 = 200%nat
  ↔ User.role user = high_admin
    ∧ ∃ issue newAssignee issue',
        issues db !! issueId = Some issue
        ∧ findUserById (parsed newAssigneeId) (users db) = Some newAssignee
        ∧ (User.role newAssignee = low_admin ∨ User.role newAssignee = high_admin)
        ∧ issues r.2 = <[Issue._id issue := issue']> (issues db)
        ∧ Issue.assignedTo issue' = Some (parsed newAssigneeId)
        ∧ Issue.assignedDepartment issue' = trim <$> User.department newAssignee
        ∧ Issue.assignedAt issue' = Some now
        ∧ Issue.status issue' = in_progress
        ∧ Issue.statusHistory issue'
          = (Issue.statusHistory issue
               ++ [StatusChange.mk in_progress (User._id user) now
                     (reassignReason reason)])%list
        ∧ Issue.set_statusHistory (Issue.statusHistory issue)
            (Issue.set_status (Issue.status issue)
               (Issue.set_assignedAt (Issue.assignedAt issue)
                  (Issue.set_assignedDepartment (Issue.assignedDepartment issue)
                     (Issue.set_assignedTo (Issue.assignedTo issue) issue'))))
          = issue
        ∧ notifications r.2
          = insertMany (reassign_docs issue' newAssigneeId (Issue.assignedTo issue))
              (notifications db).
Proof.
  cbv zeta. unfold postReassignIssue.
  destruct (requireHighAdmin user) eqn:Hguard; simpl.
  2: { split; [discriminate |]. intros [Hhigh _].
       apply requireHighAdmin_iff in Hhigh. congruence. }
  apply requireHighAdmin_iff in Hguard.
  destruct (issues db !! issueId) as [issue |]; simpl.
  2: { split; [discriminate |]. by intros (_ & ? & ? & ? & ? & _). }
  destruct (findUserById _ _) as [newAssignee |]; simpl.
  2: { split; [discriminate |]. by intros (_ & ? & ? & ? & _ & ? & _). }
  case_bool_decide as Hrole; simpl.
  - split; [| done]. intros _. split; [done |].
    eexists issue, newAssignee, _.
    split_and!; try done.
    + by apply admin_role_elem_of.
    + by destruct issue.
  - split; [discriminate |]. intros (_ & ? & ? & ? & _ & [= <-] & Hadmin & _).
    by apply admin_role_elem_of in Hadmin.
Qed.


(* --------------------------------------------------------------------- *)
(* The assignment router                                                  *)
(* --------------------------------------------------------------------- *)

(** X17: the router finds nobody exactly when the directory has no active
    low_admin with the zone; whoever it finds is a user of the directory,
    a low_admin, active, with the zone among their assigned zones. *)
Theorem findAssignee_eligible zone us :
  (findAssignee zone us = None
   ↔ ∀ u, u ∈ us →
       ¬ (User.role u = low_admin ∧ zone ∈ User.assignedZones u
          ∧ User.isActive u = true))
  ∧ ∀ admin, findAssignee zone us = Some admin →
      admin ∈ us
      ∧ User.role admin = low_admin
      ∧ zone ∈ User.assignedZones admin
      ∧ User.isActive admin = true.
Proof.
  split; [apply findAssignee_None |].
  intros admin [Hin (? & ? & ?)]%findAssignee_Some. done.
Qed.

Lemma key_le_refl a : key_le a a = true.
Proof. destruct a; simpl; [| done]. by apply bool_decide_eq_true_2. Qed.

Lemma key_le_trans a b c : key_le a b = true → key_le b c = true → key_le a c = true.
Proof.
  destruct a, b, c; simpl; try done.
  rewrite !bool_decide_eq_true. lia.
Qed.

Lemma key_le_total a b : key_le a b = false → key_le b a = true.
Proof.
  destruct a, b; simpl; try done.
  rewrite bool_decide_eq_false, bool_decide_eq_true. lia.
Qed.

Lemma head_insert_by_assignedIssues u sorted :
  head (insert_by_assignedIssues u sorted)
  = Some (match head sorted with
          | Some v =>
              if key_le (User.assignedIssues u) (User.assignedIssues v) then u else v
          | None => u
          end).
Proof. destruct sorted as [| v rest]; simpl; [done |]. by destruct (key_le _ _). Qed.

Lemma head_sort_by_assignedIssues_min us first :
  head (sort_by_assignedIssues us) = Some first →
  ∀ u, u ∈ us → key_le (User.assignedIssues first) (User.assignedIssues u) = true.
Proof.
  revert first. induction us as [| u0 us IH]; intros first Hhead u Hu.
  - by apply elem_of_nil in Hu.
  - simpl in Hhead. rewrite head_insert_by_assignedIssues in Hhead.
    destruct (head (sort_by_assignedIssues us)) as [v |] eqn:Hv.
    + specialize (IH v eq_refl).
      destruct (key_le (User.assignedIssues u0) (User.assignedIssues v)) eqn:Hle;
        injection Hhead as <-; apply elem_of_cons in Hu as [-> | Hu].
      * apply key_le_refl.
      * eapply key_le_trans; [done | by apply IH].
      * by apply key_le_total.
      * by apply IH.
    + injection Hhead as <-. apply head_None in Hv.
      assert (Hnil : us = []).
      { apply Permutation_nil_r. rewrite <- Hv. symmetry.
        apply sort_by_assignedIssues_perm. }
      subst us. apply list_elem_of_singleton in Hu as ->. apply key_le_refl.
Qed.

(** X18: among the eligible admins the router takes one whose stored
    `assignedIssues` value is smallest, a missing value sorting before
    any number. It looks only at the user directory, never at the issues;
    no route writes that value, so it is there only on documents that
    were given one directly in the collection. *)
Theorem findAssignee_least_stored_key zone us admin :
  findAssignee zone us = Some admin →
  ∀ u, u ∈ us → eligible zone u →
    key_le (User.assignedIssues admin) (User.assignedIssues u) = true.
Proof.
  unfold findAssignee. intros Hhead u Hin Hel.
  eapply head_sort_by_assignedIssues_min; [done |].
  by apply list_elem_of_filter.
Qed.

Lemma findAssignee_least_stored_key_witness :
  findAssignee "Zone E" parks_office = Some clerk_free
  ∧ User.assignedIssues clerk_free = Some 1%nat
  ∧ User.assignedIssues clerk_busy = Some 3%nat
  ∧ key_le (User.assignedIssues clerk_free) (User.assignedIssues clerk_busy) = true.
Proof.
  split; [vm_compute; reflexivity |].
  split; [reflexivity |]. split; [reflexivity |].
  apply (findAssignee_least_stored_key "Zone E" parks_office clerk_free).
  - vm_compute. reflexivity.
  - unfold parks_office. left.
  - apply (bool_decide_unpack _). vm_compute. exact I.
Defined.

(* --------------------------------------------------------------------- *)
(* Reading and deleting notifications                                     *)
(* --------------------------------------------------------------------- *)

Lemma unreadCount_insert_read userId (coll : gmap nat Notification.t) id old new :
  coll !! id = Some old →
  Notification.isRead new = true →
  unreadCount userId (<[id := new]> coll)
  = (unreadCount userId coll
     - (if bool_decide (Notification.recipient old = userId
                        ∧ Notification.isRead old = false) then 1 else 0))%nat.
Proof.
  intros Hold Hread. unfold unreadCount.
  rewrite map_filter_insert_False by (simpl; intros [_ ?]; congruence).
  rewrite map_filter_delete, map_size_delete.
  case_bool_decide as Hunread.
  - rewrite (map_lookup_filter_Some_2 _ _ id old) by done. simpl. lia.
  - destruct (filter _ coll !! id) as [n |] eqn:Hn; simpl; [| lia].
    apply map_lookup_filter_Some in Hn as [Hn ?]. by simplify_eq.
Qed.

(** X19: when a user marks one of their notifications as read, their
    unread count drops by one if it was unread and stays if it was read
    already; nobody else's unread count moves. *)
Theorem putRead_unread_count now user id db notification :
  notifications db !! id = Some notification →
  Notification.recipient notification = User._id user →
  unreadCount (User._id user) (notifications (putRead now user id db).2)
  = (unreadCount (User._id user) (notifications db)
     - (if Notification.isRead notification then 0 else 1))%nat
  ∧ ∀ other, other ≠ User._id user →
      unreadCount other (notifications (putRead now user id db).2)
      = unreadCount other (notifications db).
Proof.
  intros Hfind Hown. unfold putRead. rewrite Hfind.
  rewrite (bool_decide_eq_true_2 _ Hown). simpl. split.
  - rewrite (unreadCount_insert_read _ _ _ notification) by done.
    destruct (Notification.isRead notification) eqn:Hread.
    + rewrite bool_decide_eq_false_2 by (intros [_ ?]; congruence). done.
    + by rewrite bool_decide_eq_true_2.
  - intros other Hother.
    rewrite (unreadCount_insert_read _ _ _ notification) by done.
    rewrite bool_decide_eq_false_2 by (intros [? _]; congruence). lia.
Qed.

Lemma putRead_unread_count_witness :
  unreadCount (User._id john) (notifications (putRead 100 john 0 sample_db).2)
  = (unreadCount (User._id john) (notifications sample_db) - 1)%nat
  ∧ ∀ other, other ≠ User._id john →
      unreadCount other (notifications (putRead 100 john 0 sample_db).2)
      = unreadCount other (notifications sample_db).
Proof.
  refine (putRead_unread_count 100 john 0 sample_db _ eq_refl eq_refl).
Defined.

(** X20: after PUT /read-all the caller has no unread notification; each
    of their unread ones is now read with the current time as read time,
    while their already-read ones keep the read time they had, and other
    users' notifications and unread counts are untouched. *)
Theorem putReadAll_effect now user db :
  let coll' := notifications (putReadAll now user db).2 in
  unreadCount (User._id user) coll' = 0%nat
  ∧ (∀ id n, notifications db !! id = Some n →
       coll' !! id
       = Some (if bool_decide (Notification.recipient n = User._id user
                               ∧ Notification.isRead n = false)
               then Notification.markAsRead now n else n))
  ∧ (∀ id, notifications db !! id = None → coll' !! id = None)
  ∧ (∀ other, other ≠ User._id user →
       unreadCount other coll' = unreadCount other (notifications db))
  ∧ issues (putReadAll now user db).2 = issues db
  ∧ users (putReadAll now user db).2 = users db.
Proof.
  cbv zeta. unfold putReadAll. simpl. split_and!; try done.
  - unfold unreadCount. apply map_size_empty_iff, map_empty. intros id.
    apply map_lookup_filter_None. right. intros n' Hn'.
    apply lookup_fmap_Some in Hn' as (n & <- & _).
    simpl. case_bool_decide as Hunread; simpl; [intros [_ ?]; done | done].
  - intros id n Hn. by rewrite lookup_fmap, Hn.
  - intros id Hn. by rewrite lookup_fmap, Hn.
  - intros other Hother. unfold unreadCount.
    rewrite map_filter_fmap, map_size_fmap. f_equal.
    apply map_filter_ext. intros id n _. simpl.
    case_bool_decide as Hunread; [| done]. simpl.
    destruct Hunread as [Hrec _]. split; intros [? _]; congruence.
Qed.

(** X21: PUT /read-all twice is PUT /read-all once: the second call, at
    whatever later time, changes nothing (read times are not refreshed). *)
Theorem putReadAll_twice now later user db :
  (putReadAll later user (putReadAll now user db).2).2 = (putReadAll now user db).2.
Proof.
  unfold putReadAll, set_notifications. simpl. f_equal.
  rewrite <- map_fmap_compose. apply map_fmap_ext. intros id n _. simpl.
  destruct (decide (Notification.recipient n = User._id user
                    ∧ Notification.isRead n = false)) as [Hunread | Hread].
  - rewrite (bool_decide_eq_true_2 _ Hunread).
    rewrite bool_decide_eq_false_2; [done |]. simpl. by intros [_ ?].
  - rewrite (bool_decide_eq_false_2 _ Hread).
    by rewrite (bool_decide_eq_false_2 _ Hread).
Qed.

(** X22: DELETE /api/notifications removes exactly the caller's
    notifications: what is stored afterwards is what was stored before
    for other recipients; afterwards a read or delete request of the
    caller for an id that was theirs answers 404. *)
Theorem deleteAllNotifications_effect now user db :
  let db' := (deleteAllNotifications user db).2 in
  (∀ id n, notifications db' !! id = Some n
           ↔ notifications db !! id = Some n
             ∧ Notification.recipient n ≠ User._id user)
  ∧ (∀ id,
       (∀ n, notifications db !! id = Some n
             → Notification.recipient n = User._id user) →
       putRead now user id db' = (mkResponse 404 "Notification not found", db')
       ∧ deleteNotification user id db'
         = (mkResponse 404 "Notification not found", db'))
  ∧ issues db' = issues db
  ∧ users db' = users db.
Proof.
  cbv zeta. unfold deleteAllNotifications. simpl. split_and!; try done.
  - intros id n. by rewrite map_lookup_filter_Some.
  - intros id Hmine.
    assert (Hgone : filter (λ kv : nat * Notification.t,
                              Notification.recipient kv.2 ≠ User._id user)
                      (notifications db) !! id = None).
    { apply map_lookup_filter_None. right. intros n Hn Hrec.
      by apply Hrec, Hmine. }
    unfold putRead, deleteNotification. simpl. by rewrite Hgone.
Qed.

(** X23: once the recipient has deleted a notification it is gone: the
    other stored notifications are unchanged, and a second delete or a
    mark-as-read of the same id answers 404. *)
Theorem deleteNotification_then_gone now user id db notification :
  notifications db !! id = Some notification →
  Notification.recipient notification = User._id user →
  let db' := (deleteNotification user id db).2 in
  (deleteNotification user id db).1 = mkResponse 200 "Notification deleted successfully"
  ∧ notifications db' !! id = None
  ∧ (∀ other, other ≠ id → notifications db' !! other = notifications db !! other)
  ∧ deleteNotification user id db' = (mkResponse 404 "Notification not found", db')
  ∧ putRead now user id db' = (mkResponse 404 "Notification not found", db').
Proof.
  intros Hfind Hown. cbv zeta.
  assert (Hdeleted :
            deleteNotification user id db
            = (mkResponse 200 "Notification deleted successfully",
               set_notifications (delete id (notifications db)) db)).
  { unfold deleteNotification.
    by rewrite Hfind, (bool_decide_eq_true_2 _ Hown). }
  rewrite Hdeleted. simpl. split_and!; try done.
  - apply lookup_delete_eq.
  - intros other Hother. by apply lookup_delete_ne.
  - unfold deleteNotification. simpl. by rewrite lookup_delete_eq.
  - unfold putRead. simpl. by rewrite lookup_delete_eq.
Qed.

Lemma deleteNotification_then_gone_witness :
  (deleteNotification john 0 sample_db).1
  = mkResponse 200 "Notification deleted successfully"
  ∧ notifications (deleteNotification john 0 sample_db).2 !! 0%nat = None
  ∧ (∀ other, other ≠ 0%nat →
       notifications (deleteNotification john 0 sample_db).2 !! other
       = notifications sample_db !! other)
  ∧ deleteNotification john 0 (deleteNotification john 0 sample_db).2
    = (mkResponse 404 "Notification not found",
       (deleteNotification john 0 sample_db).2)
  ∧ putRead 100 john 0 (deleteNotification john 0 sample_db).2
    = (mkResponse 404 "Notification not found",
       (deleteNotification john 0 sample_db).2).
Proof.
  refine (deleteNotification_then_gone 100 john 0 sample_db _ eq_refl eq_refl).
Defined.

(* --------------------------------------------------------------------- *)
(* Overdue issues                                                         *)
(* --------------------------------------------------------------------- *)

(** X24: shouldEscalate answers something truthy exactly for an issue that
    is pending or in_progress and was assigned at least five full days
    (5 * 86 400 000 ms) ago; an unassigned issue, one in any other status,
    or one assigned in the future never qualifies. *)
Theorem shouldEscalate_truthy_iff now issue :
  answer_truthy (shouldEscalate now issue) = true
  ↔ (Issue.status issue = pending ∨ Issue.status issue = in_progress)
    ∧ ∃ assignedAt,
        Issue.assignedAt issue = Some assignedAt
        ∧ (Z.of_nat assignedAt + 5 * msPerDay ≤ Z.of_nat now)%Z.
Proof.
  unfold shouldEscalate, daysSinceAssignment.
  assert (Hstatus : bool_decide (Issue.status issue = pending)
                    || bool_decide (Issue.status issue = in_progress) = true
                    ↔ Issue.status issue = pending ∨ Issue.status issue = in_progress).
  { by rewrite orb_true_iff, !bool_decide_eq_true. }
  destruct (_ || _).
  2: { simpl. split; [discriminate |]. intros [Hs _]. by apply Hstatus in Hs. }
  destruct (Issue.assignedAt issue) as [assignedAt |].
  2: { simpl. split; [discriminate |]. by intros [_ (? & ? & _)]. }
  assert (Hpos : (0 < msPerDay)%Z) by done.
  assert (Hdays : (5 ≤ (Z.of_nat now - Z.of_nat assignedAt) `div` msPerDay)%Z
                  ↔ (Z.of_nat assignedAt + 5 * msPerDay ≤ Z.of_nat now)%Z).
  { split.
    - intros Hle.
      pose proof (Z.mul_div_le (Z.of_nat now - Z.of_nat assignedAt) msPerDay Hpos).
      nia.
    - intros Hle. apply Z.div_le_lower_bound; lia. }
  case_bool_decide as Hzero; simpl.
  - rewrite (bool_decide_eq_true_2 _ Hzero). simpl.
    split; [discriminate |]. intros [_ (? & [= <-] & Hle)].
    apply Hdays in Hle. lia.
  - rewrite bool_decide_eq_true, Hdays. split.
    + intros Hle. split; [by apply Hstatus |]. by exists assignedAt.
    + by intros [_ (? & [= <-] & Hle)].
Qed.

(* --------------------------------------------------------------------- *)
(* Viewing                                                                *)
(* --------------------------------------------------------------------- *)

(** X25: whoever is allowed to change an issue is allowed to read it: if
    any of canUpdateStatus, hasIssueAccess, canAddWorkProof or
    canAssignIssue grants the user, GET /:id returns the issue. *)
Theorem permitted_actor_can_view user id db issue :
  issues db !! id = Some issue →
  (∃ status, canUpdateStatus user issue status = true)
  ∨ hasIssueAccess user issue = true
  ∨ canAddWorkProof user issue = true
  ∨ canAssignIssue user issue = true →
  getIssue user id db = inr issue.
Proof.
  intros Hfind Hgrant. unfold getIssue. rewrite Hfind.
  unfold canUpdateStatus, hasIssueAccess, canAddWorkProof, canAssignIssue in Hgrant.
  destruct (User.role user) eqn:Hrole; simpl; [| | done].
  - assert (Hrep : Issue.reportedBy issue = User._id user).
    { destruct Hgrant as [[status Hg] | [Hg | [Hg | Hg]]]; try discriminate.
      - by apply andb_true_iff in Hg as [?%bool_decide_eq_true _].
      - by apply bool_decide_eq_true in Hg. }
    by rewrite (bool_decide_eq_true_2 _ Hrep).
  - assert (Hany : bool_decide (Issue.assignedTo issue = Some (User._id user))
                   || bool_decide (Issue.assignedDepartment issue = User.department user)
                   || bool_decide (Issue.zone issue ∈ User.assignedZones user) = true).
    { rewrite !orb_true_iff, !bool_decide_eq_true.
      destruct Hgrant as [[status Hg] | [Hg | [Hg | Hg]]];
        rewrite ?orb_true_iff, ?bool_decide_eq_true in Hg; intuition congruence. }
    by rewrite Hany.
Qed.

Lemma permitted_actor_can_view_witness :
  getIssue manager 13 sample_db = inr sinkhole.
Proof.
  apply (permitted_actor_can_view manager 13 sample_db sinkhole).
  - vm_compute. reflexivity.
  - right. right. right. vm_compute. reflexivity.
Defined.

(* --------------------------------------------------------------------- *)
(* Deactivating users                                                     *)
(* --------------------------------------------------------------------- *)

Lemma saveUser_deactivate_fields user us :
  map User._id (saveUser (deactivate user) us) = map User._id us
  ∧ (findUserById (User._id user) us = Some user →
     map User.role (saveUser (deactivate user) us) = map User.role us
     ∧ map User.assignedZones (saveUser (deactivate user) us)
       = map User.assignedZones us
     ∧ map User.department (saveUser (deactivate user) us) = map User.department us
     ∧ length (findHighAdmins (saveUser (deactivate user) us))
       = length (findHighAdmins us)
     ∧ findUserById (User._id user) (saveUser (deactivate user) us)
       = Some (deactivate user)).
Proof.
  unfold findUserById, findHighAdmins.
  induction us as [| u us [IHid IH]]; simpl; [done |].
  case_bool_decide as Hid; simpl.
  - split; [by f_equal |]. rewrite filter_cons_True by done. simpl.
    intros [= ->]. split_and!; try done.
    + rewrite !filter_cons. simpl. by case_decide.
    + by rewrite filter_cons_True.
  - split; [by f_equal |]. rewrite filter_cons_False by done.
    intros Hfind. destruct (IH Hfind) as (-> & -> & -> & Hhigh & Hfound).
    split_and!; try done.
    + rewrite !filter_cons. case_decide; simpl; by rewrite Hhigh.
    + by rewrite filter_cons_False.
Qed.

(** X26: DELETE /api/users/:id answers 200 exactly when the actor is a
    high_admin (the route's role middleware), the user exists and, if a
    high_admin, is not the only high_admin document. The check counts
    documents whether active or not, and a deactivation leaves that count
    as it is: with two or more high_admin documents every one of them can
    be deactivated, also the last active one. *)
Theorem deleteUser_success_iff actor id db :
  (code (deleteUser actor id db).1 = 200%nat
   ↔ User.role actor = high_admin
     ∧ ∃ user, findUserById id (users db) = Some user
         ∧ (User.role user = high_admin
            → (2 ≤ length (findHighAdmins (users db)))%nat))
  ∧ length (findHighAdmins (users (deleteUser actor id db).2))
    = length (findHighAdmins (users db)).
Proof.
  unfold deleteUser. fold (requireHighAdmin actor).
  destruct (requireHighAdmin actor) eqn:Hguard; simpl.
  2: { split; [| done]. split; [discriminate |]. intros [Hactor _].
       apply requireHighAdmin_iff in Hactor. congruence. }
  apply requireHighAdmin_iff in Hguard.
  destruct (findUserById id (users db)) as [user |] eqn:Hfind; simpl.
  2: { split; [| done]. split; [discriminate |]. by intros (_ & ? & ? & _). }
  case_bool_decide as Hhigh; simpl.
  - case_bool_decide as Hcount; simpl.
    + split; [| done]. split; [discriminate |].
      intros (_ & ? & [= <-] & Hmore). specialize (Hmore Hhigh). lia.
    + split.
      * split; [| done]. intros _. split; [done |].
        exists user. split; [done |]. lia.
      * pose proof (findUserById_id _ _ _ Hfind) as <-.
        destruct (saveUser_deactivate_fields user (users db)) as [_ Hfields].
        by destruct (Hfields Hfind) as (_ & _ & _ & -> & _).
  - split.
    + split; [| done]. intros _. split; [done |]. exists user. by split.
    + pose proof (findUserById_id _ _ _ Hfind) as <-.
      destruct (saveUser_deactivate_fields user (users db)) as [_ Hfields].
      by destruct (Hfields Hfind) as (_ & _ & _ & -> & _).
Qed.

(** X27: a deactivation is a soft delete: the directory keeps every
    document, with the same ids, roles, zones and departments; the target
    is found again with isActive false; issues (also those assigned to
    the target) and notifications are untouched. *)
Theorem deleteUser_effect actor id db user :
  findUserById id (users db) = Some user →
  code (deleteUser actor id db).1 = 200%nat →
  let db' := (deleteUser actor id db).2 in
  map User._id (users db') = map User._id (users db)
  ∧ map User.role (users db') = map User.role (users db)
  ∧ map User.assignedZones (users db') = map User.assignedZones (users db)
  ∧ map User.department (users db') = map User.department (users db)
  ∧ findUserById id (users db') = Some (deactivate user)
  ∧ issues db' = issues db
  ∧ notifications db' = notifications db.
Proof.
  intros Hfind. cbv zeta. unfold deleteUser.
  destruct (negb (requireRole _ _)); [discriminate |]. rewrite Hfind.
  destruct (_ && _); [discriminate |]. intros _. simpl.
  pose proof (findUserById_id _ _ _ Hfind) as <-.
  destruct (saveUser_deactivate_fields user (users db)) as [Hids Hfields].
  destruct (Hfields Hfind) as (? & ? & ? & _ & ?). done.
Qed.

Lemma deleteUser_effect_witness :
  map User._id (users (deleteUser sysadmin 2 sample_db).2)
  = map User._id (users sample_db)
  ∧ map User.role (users (deleteUser sysadmin 2 sample_db).2)
    = map User.role (users sample_db)
  ∧ map User.assignedZones (users (deleteUser sysadmin 2 sample_db).2)
    = map User.assignedZones (users sample_db)
  ∧ map User.department (users (deleteUser sysadmin 2 sample_db).2)
    = map User.department (users sample_db)
  ∧ findUserById 2 (users (deleteUser sysadmin 2 sample_db).2)
    = Some (deactivate manager)
  ∧ issues (deleteUser sysadmin 2 sample_db).2 = issues sample_db
  ∧ notifications (deleteUser sysadmin 2 sample_db).2 = notifications sample_db.
Proof.
  apply (deleteUser_effect sysadmin 2 sample_db manager).
  - vm_compute. reflexivity.
  - vm_compute. reflexivity.
Defined.

Lemma elem_of_saveUser user us u :
  NoDup (map User._id us) →
  u ∈ saveUser user us → u = user ∨ User._id u ≠ User._id user.
Proof.
  induction us as [| u0 us IH]; simpl; [by intros _ ?%elem_of_nil |].
  intros [Hfresh Hnodup]%NoDup_cons. case_bool_decide as Hid.
  - intros [-> | Hin]%elem_of_cons; [by left |]. right.
    intros Heq. apply Hfresh. rewrite Hid, <- Heq.
    apply list_elem_of_fmap. by exists u.
  - intros [-> | Hin]%elem_of_cons; [by right |]. by apply IH.
Qed.

(** X28: once a user is deactivated the assignment router passes them
    over: with ids unique in the directory, no automatic assignment after
    a successful DELETE /api/users/:id picks that user, for any zone. *)
Theorem deactivated_user_not_auto_assigned actor id db zone admin :
  NoDup (map User._id (users db)) →
  code (deleteUser actor id db).1 = 200%nat →
  findAssignee zone (users (deleteUser actor id db).2) = Some admin →
  User._id admin ≠ id.
Proof.
  intros Hnodup Hok Hassignee.
  apply findAssignee_Some in Hassignee as [Hin (_ & _ & Hactive)].
  revert Hok Hin. unfold deleteUser.
  destruct (negb (requireRole _ _)); [discriminate |].
  destruct (findUserById id (users db)) as [user |] eqn:Hfind; [| discriminate].
  destruct (_ && _); [discriminate |]. intros _. simpl. intros Hin.
  pose proof (findUserById_id _ _ _ Hfind) as <-.
  apply elem_of_saveUser in Hin as [-> | Hne]; [discriminate Hactive | | done].
  done.
Qed.

Lemma deactivated_user_not_auto_assigned_witness :
  findAssignee "Zone A" (users (deleteUser sysadmin 2 sample_db).2) = Some foreman
  ∧ User._id foreman ≠ 2%nat.
Proof.
  split; [vm_compute; reflexivity |].
  apply (deactivated_user_not_auto_assigned sysadmin 2 sample_db "Zone A" foreman).
  - apply (bool_decide_unpack _). vm_compute. exact I.
  - vm_compute. reflexivity.
  - vm_compute. reflexivity.
Defined.

(* --------------------------------------------------------------------- *)
(* Paging                                                                 *)
(* --------------------------------------------------------------------- *)

Lemma take_add_drop {A} (a b : nat) (l : list A) :
  take (a + b) l = (take a l ++ take b (drop a l))%list.
Proof.
  revert l. induction a as [| a IH]; intros l; simpl; [done |].
  destruct l as [| x l]; simpl; [by rewrite take_nil |]. by rewrite IH.
Qed.

Lemma concat_pages {A} (limit n : nat) (found : list A) :
  concat (map (λ page, pageOf page limit found) (seq 1 n)) = take (n * limit) found.
Proof.
  induction n as [| n IH]; [done |].
  rewrite seq_S, map_app, concat_app, IH. simpl.
  rewrite app_nil_r. unfold pageOf.
  replace (S n - 1)%nat with n by lia.
  replace (limit + n * limit)%nat with (n * limit + limit)%nat by lia.
  by rewrite take_add_drop.
Qed.

Lemma totalPages_bounds total limit :
  (0 < limit)%nat →
  (total ≤ totalPages total limit * limit)%nat
  ∧ ((0 < totalPages total limit)%nat
     → ((totalPages total limit - 1) * limit < total)%nat).
Proof.
  intros Hlimit. unfold totalPages.
  pose proof (Nat.div_mod_eq total limit) as Hdm.
  pose proof (Nat.mod_upper_bound total limit ltac:(lia)) as Hmod.
  case_bool_decide as Hzero; split; nia.
Qed.

(** X29: with a limit of at least one, the pages 1 .. totalPages, taken in
    order, are exactly the result list: nothing is skipped or repeated.
    Every page has at most `limit` entries, every page up to totalPages
    has at least one, and every page beyond it is empty. *)
Theorem pages_partition {A} (limit : nat) (found : list A) :
  (0 < limit)%nat →
  let pages := totalPages (length found) limit in
  concat (map (λ page, pageOf page limit found) (seq 1 pages)) = found
  ∧ (∀ page, (length (pageOf page limit found) ≤ limit)%nat)
  ∧ (∀ page, (1 ≤ page ≤ pages)%nat → pageOf page limit found ≠ [])
  ∧ (∀ page, (pages < page)%nat → pageOf page limit found = []).
Proof.
  intros Hlimit. cbv zeta.
  destruct (totalPages_bounds (length found) limit Hlimit) as [Hupper Hlower].
  split_and!.
  - rewrite concat_pages. by apply take_ge.
  - intros page. unfold pageOf. rewrite length_take. lia.
  - intros page Hpage Hempty.
    apply (f_equal length) in Hempty. unfold pageOf in Hempty.
    rewrite length_take, length_drop in Hempty. simpl in Hempty.
    assert ((page - 1) * limit
            ≤ (totalPages (length found) limit - 1) * limit)%nat
      by (apply Nat.mul_le_mono_r; lia).
    specialize (Hlower ltac:(lia)). lia.
  - intros page Hpage. unfold pageOf.
    assert (totalPages (length found) limit * limit ≤ (page - 1) * limit)%nat
      by (apply Nat.mul_le_mono_r; lia).
    rewrite drop_ge; [by rewrite take_nil | lia].
Qed.

Lemma pages_partition_witness :
  concat (map (λ page, pageOf page 3 [1; 2; 3; 4; 5; 6; 7]%nat)
            (seq 1 (totalPages (length [1; 2; 3; 4; 5; 6; 7]%nat) 3)))
  = [1; 2; 3; 4; 5; 6; 7]%nat
  ∧ (∀ page, (length (pageOf page 3 [1; 2; 3; 4; 5; 6; 7]%nat) ≤ 3)%nat)
  ∧ (∀ page, (1 ≤ page ≤ totalPages (length [1; 2; 3; 4; 5; 6; 7]%nat) 3)%nat
             → pageOf page 3 [1; 2; 3; 4; 5; 6; 7]%nat ≠ [])
  ∧ (∀ page, (totalPages (length [1; 2; 3; 4; 5; 6; 7]%nat) 3 < page)%nat
             → pageOf page 3 [1; 2; 3; 4; 5; 6; 7]%nat = []).
Proof.
  apply (pages_partition 3 [1; 2; 3; 4; 5; 6; 7]%nat). lia.
Defined.
